(** * URL shortener (Backend Test Submission/app.py): a shallow embedding

    The Flask handlers [create_shorturl], [get_shorturl_stats] and
    [redirect_to_original] of [app.py] are embedded as functions over an
    explicit store (the two SQL tables), an explicit clock, an explicit
    random source and explicit store faults.  Python values keep the shape
    they have in the program: strings are lists of code points, integers are
    [Z], a [datetime] carries its optional [tzinfo], a raised exception is a
    value of the error monad [res]. *)

From Stdlib Require Import ZArith List Bool Ascii String Lia.
From Stdlib Require Import Floats.SpecFloat.
From stdpp Require Import base option list gmap sorting.

Open Scope Z_scope.
Set Warnings "-register-all".

(** ** Python strings: sequences of Unicode code points *)

Abbreviation str := (list N).

(** A string literal of the program, written with Rocq's ASCII notation. *)
Definition lit (s : string) : str :=
  List.map N_of_ascii (list_ascii_of_string s).

(** ** Exceptions and the error monad *)

Inductive exn :=
  | TypeError | ValueError | OverflowError | AttributeError.

Inductive res (A : Type) :=
  | Ok (a : A)
  | Raise (e : exn).
Arguments Ok {A} a.
Arguments Raise {A} e.

#[global] Instance res_ret : MRet res := λ A a, Ok a.
#[global] Instance res_bind : MBind res := λ A B f m,
  match m with Ok a => f a | Raise e => Raise e end.

(** ** [datetime]

    A [datetime] is the point [wall] its calendar fields denote, counted in
    microseconds from 0001-01-01T00:00:00, and its [tzinfo]: [None] for a
    naive value, [Some off] for a fixed-offset [timezone] whose [utcoffset]
    is [off] microseconds.  [timezone.utc] is offset 0. *)

Record datetime := { wall : Z; tzinfo : option Z }.

Definition US_PER_SECOND : Z := 1000000.
Definition US_PER_MINUTE : Z := 60 * US_PER_SECOND.
Definition US_PER_HOUR   : Z := 60 * US_PER_MINUTE.
Definition US_PER_DAY    : Z := 24 * US_PER_HOUR.

(** [date.max.toordinal()]: 9999-12-31 is day 3652059. *)
Definition MAXORDINAL : Z := 3652059.
Definition MAX_WALL : Z := MAXORDINAL * US_PER_DAY.

Definition in_range (w : Z) : bool := (0 <=? w) && (w <? MAX_WALL).

Definition timezone_utc : Z := 0.

(** [dt.replace(tzinfo=tz)] *)
Definition replace_tzinfo (dt : datetime) (tz : option Z) : datetime :=
  {| wall := wall dt; tzinfo := tz |}.

(** [datetime.utcnow()]: the wall clock of the host in UTC, naive. *)
Definition utcnow (clock : Z) : datetime := {| wall := clock; tzinfo := None |}.

(** [now_utc()] and the inlined copies of it in the handlers:
    [datetime.utcnow().replace(tzinfo=timezone.utc)]. *)
Definition now_utc (clock : Z) : datetime :=
  replace_tzinfo (utcnow clock) (Some timezone_utc).

(** [timedelta(minutes=v)], in microseconds.  A [timedelta] holds at most
    999999999 days in either direction. *)
Definition timedelta_minutes (v : Z) : res Z :=
  if Z.abs ((v * 60) `div` 86400) <=? 999999999
  then Ok (v * US_PER_MINUTE)
  else Raise OverflowError.

(** [dt + delta]: the result must stay within years 1..9999. *)
Definition datetime_add (dt : datetime) (delta : Z) : res datetime :=
  if in_range (wall dt + delta)
  then Ok {| wall := wall dt + delta; tzinfo := tzinfo dt |}
  else Raise OverflowError.

(** [a > b]: two naive values compare by their fields, two aware values by
    the instants they denote, and a naive value does not compare with an
    aware one. *)
Definition datetime_gt (a b : datetime) : res bool :=
  match tzinfo a, tzinfo b with
  | None, None => Ok (wall b <? wall a)
  | Some oa, Some ob => Ok (wall b - ob <? wall a - oa)
  | _, _ => Raise TypeError
  end.

(** *** Calendar fields *)

Definition DI400Y : Z := 146097.
Definition DI100Y : Z := 36524.
Definition DI4Y   : Z := 1461.

Definition DAYS_IN_MONTH (m : Z) : Z :=
  match m with
  | 1 => 31 | 2 => 28 | 3 => 31 | 4 => 30 | 5 => 31 | 6 => 30
  | 7 => 31 | 8 => 31 | 9 => 30 | 10 => 31 | 11 => 30 | 12 => 31
  | _ => -1
  end.

Definition DAYS_BEFORE_MONTH (m : Z) : Z :=
  match m with
  | 1 => 0 | 2 => 31 | 3 => 59 | 4 => 90 | 5 => 120 | 6 => 151
  | 7 => 181 | 8 => 212 | 9 => 243 | 10 => 273 | 11 => 304 | 12 => 334
  | _ => -1
  end.

Definition b2z (b : bool) : Z := if b then 1 else 0.

(** The proleptic Gregorian ordinal (day 1 is 0001-01-01) as year, month
    and day. *)
Definition ord2ymd (ordinal : Z) : Z * Z * Z :=
  let n := ordinal - 1 in
  let n400 := n `div` DI400Y in
  let n := n `mod` DI400Y in
  let year := n400 * 400 + 1 in
  let n100 := n `div` DI100Y in
  let n := n `mod` DI100Y in
  let n4 := n `div` DI4Y in
  let n := n `mod` DI4Y in
  let n1 := n `div` 365 in
  let n := n `mod` 365 in
  let year := year + n100 * 100 + n4 * 4 + n1 in
  if (n1 =? 4) || (n100 =? 4) then (year - 1, 12, 31)
  else
    let leapyear := (n1 =? 3) && (negb (n4 =? 24) || (n100 =? 3)) in
    let month := Z.shiftr (n + 50) 5 in
    let preceding := DAYS_BEFORE_MONTH month + b2z ((2 <? month) && leapyear) in
    if n <? preceding
    then
      let month := month - 1 in
      let preceding :=
        preceding - (DAYS_IN_MONTH month + b2z ((month =? 2) && leapyear)) in
      (year, month, n - preceding + 1)
    else (year, month, n - preceding + 1).

(** *** Text of a number: C's [%0<width>d] *)

Fixpoint digits_aux (fuel : nat) (n : Z) (acc : str) : str :=
  match fuel with
  | O => acc
  | S fuel' =>
      let acc' := (48 + Z.to_N (n `mod` 10))%N :: acc in
      if n <? 10 then acc' else digits_aux fuel' (n `div` 10) acc'
  end.

Definition digits (n : Z) : str :=
  digits_aux (S (Z.to_nat (Z.log2 n))) n [].

Definition zfill (width : nat) (s : str) : str :=
  repeat 48%N (width - length s)%nat ++ s.

Definition fmt_d (width : nat) (n : Z) : str :=
  if n <? 0 then 45%N :: zfill (width - 1)%nat (digits (- n))
  else zfill width (digits n).

(** *** [isoformat()] *)

(** The offset text of an aware value: [+HH:MM], with [:SS] and [.ffffff]
    only when they are not zero. *)
Definition format_utcoffset (off : Z) : str :=
  let sign := if off <? 0 then 45%N else 43%N in
  let a := Z.abs off in
  let hh := a `div` US_PER_HOUR in
  let mm := (a `mod` US_PER_HOUR) `div` US_PER_MINUTE in
  let ss := (a `mod` US_PER_MINUTE) `div` US_PER_SECOND in
  let us := a `mod` US_PER_SECOND in
  sign :: fmt_d 2 hh ++ lit ":" ++ fmt_d 2 mm
    ++ (if (ss =? 0) && (us =? 0) then [] else lit ":" ++ fmt_d 2 ss)
    ++ (if us =? 0 then [] else lit "." ++ fmt_d 6 us).

(** The date and time part: [YYYY-MM-DDTHH:MM:SS], with [.ffffff] when the
    microsecond is not zero. *)
Definition isoformat_fields (w : Z) : str :=
  let '(y, m, d) := ord2ymd (w `div` US_PER_DAY + 1) in
  let r := w `mod` US_PER_DAY in
  let hh := r `div` US_PER_HOUR in
  let mm := (r `mod` US_PER_HOUR) `div` US_PER_MINUTE in
  let ss := (r `mod` US_PER_MINUTE) `div` US_PER_SECOND in
  let us := r `mod` US_PER_SECOND in
  fmt_d 4 y ++ lit "-" ++ fmt_d 2 m ++ lit "-" ++ fmt_d 2 d ++ lit "T"
    ++ fmt_d 2 hh ++ lit ":" ++ fmt_d 2 mm ++ lit ":" ++ fmt_d 2 ss
    ++ (if us =? 0 then [] else lit "." ++ fmt_d 6 us).

Definition isoformat (dt : datetime) : str :=
  isoformat_fields (wall dt)
    ++ match tzinfo dt with
       | None => []
       | Some off => format_utcoffset off
       end.

(** [dt.astimezone(timezone.utc)] for an aware [dt]: converting to the zone
    the value already has returns it as it is; otherwise the offset is
    subtracted (which can leave the supported range) and UTC attached. *)
Definition astimezone_utc (w off : Z) : res datetime :=
  if off =? timezone_utc then Ok {| wall := w; tzinfo := Some timezone_utc |}
  else if in_range (w - off)
       then Ok {| wall := w - off; tzinfo := Some timezone_utc |}
       else Raise OverflowError.

(** *** [str] methods *)

Fixpoint startswith (p s : str) : bool :=
  match p, s with
  | [], _ => true
  | a :: p', b :: s' => (a =? b)%N && startswith p' s'
  | _ :: _, [] => false
  end.

(** [s.replace(old, new)] for a non-empty [old]: every occurrence, scanning
    from the left, occurrences not overlapping.  [skip] counts the
    characters of the occurrence just replaced that are still to pass. *)
Fixpoint replace_from (old new : str) (skip : nat) (s : str) : str :=
  match s with
  | [] => []
  | c :: t =>
      match skip with
      | S k => replace_from old new k t
      | O =>
          if startswith old s
          then new ++ replace_from old new (length old - 1)%nat t
          else c :: replace_from old new O t
      end
  end.

Definition str_replace (old new s : str) : str := replace_from old new O s.

Fixpoint contains (sub s : str) : bool :=
  startswith sub s ||
  match s with
  | [] => false
  | _ :: t => contains sub t
  end.

Definition endswith (suffix s : str) : bool :=
  startswith (rev suffix) (rev s).

(** ** [to_iso_z] (lines 112-116) *)

Definition to_iso_z (dt : datetime) : res str :=
  let off :=
    match tzinfo dt with
    | None => timezone_utc          (* dt = dt.replace(tzinfo=timezone.utc) *)
    | Some off => off
    end in
  u ← astimezone_utc (wall dt) off;
  mret (str_replace (lit "+00:00") (lit "Z") (isoformat u)).


(** [s.strip()]: leading and trailing characters for which [isspace()]
    holds are removed. *)
Definition isspace (c : N) : bool :=
  ((9 <=? c) && (c <=? 13) || (28 <=? c) && (c <=? 32)
   || (c =? 133) || (c =? 160) || (c =? 5760)
   || (8192 <=? c) && (c <=? 8202)
   || (c =? 8232) || (c =? 8233) || (c =? 8239) || (c =? 8287)
   || (c =? 12288))%N.

Fixpoint lstrip_with (p : N → bool) (s : str) : str :=
  match s with
  | [] => []
  | c :: t => if p c then lstrip_with p t else s
  end.

Definition rstrip_with (p : N → bool) (s : str) : str :=
  rev (lstrip_with p (rev s)).

Definition strip (s : str) : str := rstrip_with isspace (lstrip_with isspace s).

(** ** JSON values as [request.get_json] returns them

    [JNull] is Python's [None] (also what [get_json(silent=True)] returns for
    a body that does not parse), [JInt] an [int], [JFloat] a [float] (with
    the [NaN] and [Infinity] that [json.loads] accepts), [JObj] a [dict]
    given by its items. *)

Inductive json :=
  | JNull
  | JBool (b : bool)
  | JInt (n : Z)
  | JFloat (f : spec_float)
  | JStr (s : str)
  | JArr (l : list json)
  | JObj (items : list (str * json)).

(** Truth value of a Python object ([if x:], [not x], [x or y]). *)
Definition truthy (v : json) : bool :=
  match v with
  | JNull => false
  | JBool b => b
  | JInt n => negb (n =? 0)
  | JFloat (S754_zero _) => false
  | JFloat _ => true
  | JStr s => negb (bool_decide (s = []))
  | JArr l => negb (bool_decide (l = []))
  | JObj items => match items with [] => false | _ :: _ => true end
  end.

(** [d.get(key, default)] on the items of a [dict]. *)
Fixpoint dict_get (items : list (str * json)) (key : str) (default : json) : json :=
  match items with
  | [] => default
  | (k, v) :: rest => if bool_decide (k = key) then v else dict_get rest key default
  end.

Definition dict_has (items : list (str * json)) (key : str) : bool :=
  existsb (λ kv, bool_decide (kv.1 = key)) items.

(** The parts of the Python runtime the handlers call and this development
    leaves open: [int(s)] on a string (signs, underscores, all Unicode
    decimal digits) and [str(x)] on a float, a list or a dict. *)
Class PyRuntime := {
  int_of_str : str → option Z;
  repr_of : json → str
}.

(** ** Configuration and helpers (lines 16-18, 102-123) *)

Definition HOSTNAME : str := lit "http://localhost:5000".

Definition ALPHABET : str :=
  lit "abcdefghijklmnopqrstuvwxyzABCDEFGHIJKLMNOPQRSTUVWXYZ0123456789".

(** The character class [[A-Za-z0-9]]. *)
Definition is_alnum (c : N) : bool :=
  ((65 <=? c) && (c <=? 90) || (97 <=? c) && (c <=? 122)
   || (48 <=? c) && (c <=? 57))%N.

(** [$] matches at the end of the string and just before a newline that is
    its last character. *)
Definition at_end (rest : str) : bool :=
  bool_decide (rest = []) || bool_decide (rest = [10%N]).

(** [SHORTCODE_RE.match(s)] for [^[A-Za-z0-9]{4,64}$]: some [k] from 4 to 64
    such that the first [k] characters are in the class and [$] matches
    after them. *)
Definition SHORTCODE_RE_match (s : str) : bool :=
  existsb
    (λ k, (length (take k s) =? k)%nat && forallb is_alnum (take k s)
          && at_end (drop k s))
    (seq 4 61).

(** The random source: [draws i] is the index that the [i]-th call of the
    generator picks in a population, [cursor] the number of calls made. *)
Record rng := { draws : nat → nat; cursor : nat }.

(** [random.choices(population, k=k)] *)
Definition random_choices (population : str) (k : nat) (g : rng) : str * rng :=
  (List.map
     (λ i, nth (draws g (cursor g + i) `mod` length population)%nat population 0%N)
     (seq 0 k),
   {| draws := draws g; cursor := (cursor g + k)%nat |}).

Definition generate_shortcode (length : nat) (g : rng) : str * rng :=
  random_choices ALPHABET length g.

Definition validate_url (url : json) : bool :=
  match url with
  | JStr u =>
      let u := strip u in
      startswith (lit "http://") u || startswith (lit "https://") u
  | _ => false
  end.


(** ** The store (lines 31-48)

    The two tables of the SQLite file.  [shorturls] has a unique index on
    [shortcode], so it is a finite map from the shortcode to the row;
    [clicks] is the list of rows in insertion order.  The [id] columns are
    assigned by the store and read by no handler; they are left out.  A
    [db.DateTime] column holds the calendar fields of the value written to
    it and nothing else: the [tzinfo] is not stored, and the value read back
    is naive ([to_iso_z] attaches UTC to such values). *)

Definition store_DateTime (dt : datetime) : Z := wall dt.
Definition load_DateTime (column : Z) : datetime :=
  {| wall := column; tzinfo := None |}.

Module ShortURL.
Record t := {
  shortcode : str;
  original_url : str;
  created_at : Z;
  expiry : Z
}.
End ShortURL.

Module Click.
Record t := {
  shortcode : str;
  timestamp : Z;
  referrer : option str;
  location : option str;
  ip : option str;
  user_agent : option str
}.
End Click.

Record DB := {
  shorturls : gmap str ShortURL.t;
  clicks : list Click.t
}.

(** [ShortURL.query.filter_by(shortcode=code).first()] *)
Definition query_shorturl (db : DB) (code : str) : option ShortURL.t :=
  shorturls db !! code.

(** [Click.query.filter_by(shortcode=code).order_by(Click.timestamp.asc()).all()] *)
Definition timestamp_le (a b : Click.t) : Prop :=
  Click.timestamp a ≤ Click.timestamp b.

#[global] Instance timestamp_le_dec : RelDecision timestamp_le :=
  λ a b, Z_le_dec (Click.timestamp a) (Click.timestamp b).

(** [ORDER BY timestamp ASC]: ascending timestamps; rows of equal timestamp
    stay in the order of their insertion. *)
Fixpoint insert_by_timestamp (c : Click.t) (sorted : list Click.t) : list Click.t :=
  match sorted with
  | [] => [c]
  | d :: rest =>
      if bool_decide (timestamp_le c d) then c :: sorted
      else d :: insert_by_timestamp c rest
  end.

Fixpoint order_by_timestamp (rows : list Click.t) : list Click.t :=
  match rows with
  | [] => []
  | c :: rest => insert_by_timestamp c (order_by_timestamp rest)
  end.

Definition query_clicks (db : DB) (code : str) : list Click.t :=
  order_by_timestamp
    (List.filter (λ c, bool_decide (Click.shortcode c = code)) (clicks db)).

(** [db.session.add(short); db.session.commit()].  [fault] is a failure of
    the store other than a constraint violation; the unique index on
    [shortcode] refuses a row whose shortcode is registered. *)
Inductive commit_result :=
  | Committed (db' : DB)
  | IntegrityError
  | StoreError.

Definition commit_shorturl (fault : bool) (db : DB) (row : ShortURL.t) : commit_result :=
  if fault then StoreError
  else match shorturls db !! ShortURL.shortcode row with
       | Some _ => IntegrityError
       | None =>
           Committed {| shorturls := <[ShortURL.shortcode row := row]> (shorturls db);
                        clicks := clicks db |}
       end.

(** [db.session.add(click); db.session.commit()]: [None] when the commit
    raises. *)
Definition commit_click (fault : bool) (db : DB) (row : Click.t) : option DB :=
  if fault then None
  else Some {| shorturls := shorturls db; clicks := clicks db ++ [row] |}.

(** Rows that other writers commit between the queries of a creation
    request and its own commit: they never replace a registered row. *)
Definition concurrent_writes (racing : gmap str ShortURL.t) (db : DB) : DB :=
  {| shorturls := shorturls db ∪ racing; clicks := clicks db |}.

(** ** Responses *)

Record click_entry := {
  ce_timestamp : str;
  ce_referrer : option str;
  ce_location : str;
  ce_ip : option str;
  ce_user_agent : option str
}.

Inductive body :=
  | ErrorBody (error : str)
  | CreatedBody (shortLink expiry : str)
  | StatsBody (clicks : nat) (originalURL createdAt expiry : str)
              (clickData : list click_entry)
  | RedirectBody (location : str).

Record response := { status : Z; payload : body }.

Definition error_response (code : Z) (msg : string) : response :=
  {| status := code; payload := ErrorBody (lit msg) |}.

(** What the client receives: an exception that leaves a handler reaches
    the [errorhandler(500)] of lines 288-290. *)
Definition serve (r : res response) : response :=
  match r with
  | Ok resp => resp
  | Raise _ => error_response 500 "Internal server error"
  end.

(** ** [create_shorturl] (lines 128-202) *)

Section create.
Context `{PyRuntime}.

(** [int(x)] *)
Definition py_int (v : json) : res Z :=
  match v with
  | JNull => Raise TypeError
  | JBool b => Ok (b2z b)
  | JInt n => Ok n
  | JFloat S754_nan => Raise ValueError
  | JFloat (S754_infinity _) => Raise OverflowError
  | JFloat (S754_zero _) => Ok 0
  | JFloat (S754_finite s m e) =>
      (* truncation toward zero of (-1)^s * m * 2^e *)
      let a := if 0 <=? e then Z.pos m * 2 ^ e else Z.pos m `div` 2 ^ (- e) in
      Ok (if s then - a else a)
  | JStr s => match int_of_str s with Some n => Ok n | None => Raise ValueError end
  | JArr _ | JObj _ => Raise TypeError
  end.

(** [str(x)] *)
Definition py_str (v : json) : str :=
  match v with
  | JNull => lit "None"
  | JBool true => lit "True"
  | JBool false => lit "False"
  | JInt n => fmt_d 0 n
  | JStr s => s
  | JFloat _ | JArr _ | JObj _ => repr_of v
  end.

(** Lines 146-153: [int(validity)], positive, or the 400 response. *)
Definition parse_validity (validity : json) : option Z :=
  match py_int validity with
  | Ok v => if v <=? 0 then None else Some v
  | Raise _ => None
  end.

(** Lines 169-173: up to [n] draws of one length, the first one that is not
    registered is kept. *)
Fixpoint attempts (n : nat) (attempt_len : nat) (db : DB) (g : rng) : option str * rng :=
  match n with
  | O => (None, g)
  | S n' =>
      let '(candidate, g') := generate_shortcode attempt_len g in
      match query_shorturl db candidate with
      | None => (Some candidate, g')
      | Some _ => attempts n' attempt_len db g'
      end
  end.

(** [if shortcode:] on a variable that is [None] or a string. *)
Definition truthy_code (shortcode : option str) : bool :=
  match shortcode with
  | None => false
  | Some c => truthy (JStr c)
  end.

(** Lines 168-175: the lengths in turn, leaving the loop once a shortcode is
    set. *)
Fixpoint try_lengths (lens : list nat) (db : DB) (g : rng) : option str * rng :=
  match lens with
  | [] => (None, g)
  | attempt_len :: rest =>
      let '(shortcode, g') := attempts 6 attempt_len db g in
      if truthy_code shortcode then (shortcode, g')
      else try_lengths rest db g'
  end.

(** Lines 166-181: the shortcode, or [None] where the handler answers 500. *)
Definition generate_unique (db : DB) (g : rng) : option str * rng :=
  let '(shortcode, g') := try_lengths [6; 7; 8]%nat db g in
  if truthy_code shortcode then (shortcode, g')
  else
    let '(candidate, g'') := generate_shortcode 10 g' in
    match query_shorturl db candidate with
    | Some _ => (None, g'')
    | None => (Some candidate, g'')
    end.

(** Lines 155-181: the shortcode of the new link, or the response that ends
    the request. *)
Definition resolve_shortcode (custom_shortcode : json) (db : DB) (g : rng) :
    response + str :=
  if truthy custom_shortcode then
    let custom_shortcode := strip (py_str custom_shortcode) in
    if negb (SHORTCODE_RE_match custom_shortcode) then
      inl (error_response 400
             "Provided 'shortcode' invalid. Must be alphanumeric and length 4-64.")
    else match query_shorturl db custom_shortcode with
         | Some _ => inl (error_response 409 "Shortcode already in use")
         | None => inr custom_shortcode
         end
  else
    match (generate_unique db g).1 with
    | None => inl (error_response 500
                     "Could not generate a unique shortcode. Try again.")
    | Some shortcode => inr shortcode
    end.

(** The string behind a value that is known to be a [str] ([validate_url]
    has checked [isinstance(url, str)]). *)
Definition text_of (v : json) : str :=
  match v with
  | JStr s => s
  | _ => []
  end.

(** What a creation request meets besides its body and the store. *)
Record create_env := {
  ce_clock : Z;                       (* datetime.utcnow() at line 183 *)
  ce_rng : rng;                       (* the state of random *)
  ce_racing : gmap str ShortURL.t;    (* commits of other writers before line 190 *)
  ce_fault : bool                     (* the commit fails, not on a constraint *)
}.

Definition short_link (shortcode : str) : str :=
  rstrip_with (λ c, (c =? 47)%N) HOSTNAME ++ lit "/" ++ shortcode.

(** Lines 183-184: [created_at] and [created_at + timedelta(minutes=validity)]. *)
Definition created_at_of (e : create_env) : datetime :=
  replace_tzinfo (utcnow (ce_clock e)) (Some timezone_utc).

Definition expiry_of (e : create_env) (validity : Z) : res datetime :=
  delta ← timedelta_minutes validity;
  datetime_add (created_at_of e) delta.

(** The row of line 186. *)
Definition new_row (shortcode original_url : str) (created_at expiry : datetime) :
    ShortURL.t :=
  {| ShortURL.shortcode := shortcode;
     ShortURL.original_url := original_url;
     ShortURL.created_at := store_DateTime created_at;
     ShortURL.expiry := store_DateTime expiry |}.

(** Lines 183-202: the row is built, committed and reported. *)
Definition insert_link (e : create_env) (db : DB) (original_url : str)
    (validity : Z) (shortcode : str) : res response * DB :=
  let created_at := created_at_of e in
  match expiry_of e validity with
  | Raise ex => (Raise ex, db)
  | Ok expiry =>
      let short := new_row shortcode original_url created_at expiry in
      let db := concurrent_writes (ce_racing e) db in
      match commit_shorturl (ce_fault e) db short with
      | IntegrityError =>
          (Ok (error_response 409
                 "Shortcode collision occurred (try a different custom shortcode)"), db)
      | StoreError =>
          (Ok (error_response 500 "Internal server error creating shortcode"), db)
      | Committed db' =>
          (iso ← to_iso_z expiry;
           mret {| status := 201;
                   payload := CreatedBody (short_link shortcode) iso |},
           db')
      end
  end.

Definition create_shorturl (e : create_env) (data : json) (db : DB) :
    res response * DB :=
  if negb (truthy data) then (Ok (error_response 400 "Missing JSON body"), db)
  else match data with
  | JObj items =>
    let original_url := dict_get items (lit "url") JNull in
    if negb (truthy original_url) || negb (validate_url original_url) then
      (Ok (error_response 400
             "Invalid or missing 'url' (must be absolute URL with http/https)"), db)
    else
    match parse_validity (dict_get items (lit "validity") (JInt 30)) with
    | None =>
      (Ok (error_response 400
             "'validity' must be a positive integer representing minutes"), db)
    | Some validity =>
      match resolve_shortcode (dict_get items (lit "shortcode") JNull) db (ce_rng e) with
      | inl resp => (Ok resp, db)
      | inr shortcode => insert_link e db (text_of original_url) validity shortcode
      end
    end
  | _ => (Raise AttributeError, db)     (* data.get on a value that has none *)
  end.

(** A body whose [url] and [validity] pass lines 142-153, with the minutes
    it asks for. *)
Definition passes_validation (items : list (str * json)) (validity : Z) : Prop :=
  truthy (dict_get items (lit "url") JNull) = true
  ∧ validate_url (dict_get items (lit "url") JNull) = true
  ∧ parse_validity (dict_get items (lit "validity") (JInt 30)) = Some validity.

End create.

(** ** [get_shorturl_stats] (lines 207-231) *)

(** [x or "unknown"] on a nullable text column. *)
Definition or_unknown (x : option str) : str :=
  match x with
  | Some s => if truthy (JStr s) then s else lit "unknown"
  | None => lit "unknown"
  end.

Definition click_json (c : Click.t) : res click_entry :=
  ts ← to_iso_z (load_DateTime (Click.timestamp c));
  mret {| ce_timestamp := ts;
          ce_referrer := Click.referrer c;
          ce_location := or_unknown (Click.location c);
          ce_ip := Click.ip c;
          ce_user_agent := Click.user_agent c |}.

Definition get_shorturl_stats (shortcode : str) (db : DB) : res response :=
  match query_shorturl db shortcode with
  | None => Ok (error_response 404 "Shortcode not found")
  | Some s =>
      let clicks_q := query_clicks db shortcode in
      click_list ← mapM click_json clicks_q;
      createdAt ← to_iso_z (load_DateTime (ShortURL.created_at s));
      expiry ← to_iso_z (load_DateTime (ShortURL.expiry s));
      mret {| status := 200;
              payload := StatsBody (length click_list) (ShortURL.original_url s)
                                   createdAt expiry click_list |}
  end.

(** ** [redirect_to_original] (lines 236-271) *)

(** The headers and the peer address the handler reads. *)
Record request := {
  hdr_Referer : option str;
  hdr_Referrer : option str;
  hdr_X_Forwarded_For : option str;
  remote_addr : option str;
  hdr_User_Agent : option str
}.

Record redirect_env := {
  re_clock : Z;        (* datetime.utcnow() at line 243 *)
  re_fault : bool      (* the commit of the click fails *)
}.

(** [a or b] on two optional strings. *)
Definition or_else (a b : option str) : option str :=
  match a with
  | Some s => if truthy (JStr s) then a else b
  | None => b
  end.

(** [headers.get(name, default)] *)
Definition header_or (h default : option str) : option str :=
  match h with
  | Some _ => h
  | None => default
  end.

(** Lines 243-271, for a row that was found: [s_original_url] and [s_expiry]
    are the attributes [s.original_url] and [s.expiry] of the loaded
    object. *)
Definition redirect_found (e : redirect_env) (req : request) (shortcode : str)
    (s_original_url : str) (s_expiry : datetime) (db : DB) : res response * DB :=
  let now := replace_tzinfo (utcnow (re_clock e)) (Some timezone_utc) in
  match datetime_gt now s_expiry with
  | Raise ex => (Raise ex, db)
  | Ok true => (Ok (error_response 410 "Shortlink expired"), db)
  | Ok false =>
      let click :=
        {| Click.shortcode := shortcode;
           Click.timestamp := store_DateTime now;
           Click.referrer := or_else (hdr_Referer req) (hdr_Referrer req);
           Click.location := Some (lit "unknown");
           Click.ip := header_or (hdr_X_Forwarded_For req) (remote_addr req);
           Click.user_agent := hdr_User_Agent req |} in
      let db' :=
        match commit_click (re_fault e) db click with
        | Some db' => db'
        | None => db            (* rollback; the error is dropped *)
        end in
      (Ok {| status := 302; payload := RedirectBody s_original_url |}, db')
  end.

Definition redirect_to_original (e : redirect_env) (req : request) (shortcode : str)
    (db : DB) : res response * DB :=
  match query_shorturl db shortcode with
  | None => (Ok (error_response 404 "Shortcode not found"), db)
  | Some s =>
      redirect_found e req shortcode (ShortURL.original_url s)
        (load_DateTime (ShortURL.expiry s)) db
  end.


(** ** The allocation of a generated shortcode, as the specification words it

    Draws at length 6, then 7, then 8, six per length, each one checked
    against the registry, the first unoccupied candidate returned; after 18
    occupied draws one draw at length 10. *)

Definition draw_plan : list nat := (repeat 6 6 ++ repeat 7 6 ++ repeat 8 6)%nat.

Fixpoint first_unoccupied (plan : list nat) (db : DB) (g : rng) : option str * rng :=
  match plan with
  | [] => (None, g)
  | len :: rest =>
      let '(candidate, g') := generate_shortcode len g in
      if bool_decide (is_Some (query_shorturl db candidate))
      then first_unoccupied rest db g'
      else (Some candidate, g')
  end.

Definition allocate_spec (db : DB) (g : rng) : option str * rng :=
  match first_unoccupied draw_plan db g with
  | (Some c, g') => (Some c, g')
  | (None, g') => first_unoccupied [10%nat] db g'
  end.

(** ** Sample data, for running the handlers *)

Fixpoint decimal_value (acc : Z) (s : str) : option Z :=
  match s with
  | [] => Some acc
  | c :: t =>
      if ((48 <=? c) && (c <=? 57))%N
      then decimal_value (acc * 10 + (Z.of_N c - 48)) t
      else None
  end.

(** [int(s)] on ASCII text: blanks around an optional sign and digits. *)
Definition ascii_int (s : str) : option Z :=
  match strip s with
  | [] => None
  | 45%N :: (_ :: _) as ds => Z.opp <$> decimal_value 0 ds
  | 43%N :: (_ :: _) as ds => decimal_value 0 ds
  | 45%N :: [] | 43%N :: [] => None
  | ds => decimal_value 0 ds
  end.

(** A runtime for the samples; they send [int] and [str] only numbers,
    booleans and strings, so [repr_of] is never consulted. *)
Definition sample_runtime : PyRuntime :=
  {| int_of_str := ascii_int; repr_of := λ _, lit "<object>" |}.

(** 2024-01-01T00:00:00, day 738886. *)
Definition t0 : Z := (738886 - 1) * US_PER_DAY.

Definition sample_rng : rng := {| draws := λ i, i; cursor := 0 |}.

Definition empty_db : DB := {| shorturls := ∅; clicks := [] |}.

Definition sample_env (clock : Z) : create_env :=
  {| ce_clock := clock; ce_rng := sample_rng; ce_racing := ∅; ce_fault := false |}.

Definition sample_request : request :=
  {| hdr_Referer := None; hdr_Referrer := None; hdr_X_Forwarded_For := None;
     remote_addr := Some (lit "127.0.0.1"); hdr_User_Agent := Some (lit "curl/8.0") |}.

Definition example_com : json := JStr (lit "https://example.com").

(** [{"url": "https://example.com", "validity": 1, "shortcode": "abcd1"}] *)
Definition items_abcd1 : list (str * json) :=
  [(lit "url", example_com); (lit "validity", JInt 1);
        (lit "shortcode", JStr (lit "abcd1"))].

Definition body_abcd1 : json := JObj items_abcd1.

(** The store after that request at [t0] on the empty store. *)
Definition db_abcd1 : DB :=
  (@create_shorturl sample_runtime (sample_env t0) body_abcd1 empty_db).2.

(** The candidates the draws of a plan yield, one after the other. *)
Fixpoint plan_candidates (plan : list nat) (g : rng) : list str :=
  match plan with
  | [] => []
  | len :: rest =>
      let '(candidate, g') := generate_shortcode len g in
      candidate :: plan_candidates rest g'
  end.

(** A store in which every candidate [sample_rng] yields is registered. *)
Definition crowded_db : DB :=
  {| shorturls :=
       list_to_map
         (List.map
            (λ c, (c, {| ShortURL.shortcode := c;
                         ShortURL.original_url := lit "https://example.com";
                         ShortURL.created_at := t0;
                         ShortURL.expiry := t0 + 30 * US_PER_MINUTE |}))
            (plan_candidates (draw_plan ++ [10%nat]) sample_rng));
     clicks := [] |}.

(** [{"url": "https://example.com"}] *)
Definition items_url_only : list (str * json) := [(lit "url", example_com)].

Definition body_url_only : json := JObj items_url_only.

(** The row [db_abcd1] holds. *)
Definition row_abcd1 : ShortURL.t :=
  {| ShortURL.shortcode := lit "abcd1";
     ShortURL.original_url := lit "https://example.com";
     ShortURL.created_at := t0;
     ShortURL.expiry := t0 + US_PER_MINUTE |}.

(** Another writer commits [abcd1] between the check and the commit. *)
Definition racing_env : create_env :=
  {| ce_clock := t0; ce_rng := sample_rng;
     ce_racing := {[ lit "abcd1" := row_abcd1 ]}; ce_fault := false |}.

(** [{"url": "https://example.com", "shortcode": " abcd1 "}] *)
Definition items_padded : list (str * json) :=
  [(lit "url", example_com); (lit "shortcode", JStr (lit " abcd1 "))].

Definition body_padded : json := JObj items_padded.

(** [{"url": "https://example.com", "shortcode": "ab-1"}] *)
Definition items_dash : list (str * json) :=
  [(lit "url", example_com); (lit "shortcode", JStr (lit "ab-1"))].

Definition body_dash : json := JObj items_dash.

(** [{"url": "https://example.com", "shortcode": ""}] *)
Definition items_empty_code : list (str * json) :=
  [(lit "url", example_com); (lit "shortcode", JStr [])].

Definition body_empty_code : json := JObj items_empty_code.

(** [{"url": "https://example.com", "validity": 1.5}]; 1.5 is 3 * 2^-1. *)
Definition items_fractional : list (str * json) :=
  [(lit "url", example_com);
        (lit "validity", JFloat (S754_finite false 3 (-1)))].

Definition body_fractional : json := JObj items_fractional.

(** [{"url": "https://example.com", "validity": 2.5}]; 2.5 is 5 * 2^-1. *)
Definition items_two_and_a_half : list (str * json) :=
  [(lit "url", example_com);
   (lit "validity", JFloat (S754_finite false 5 (-1)))].

Definition body_two_and_a_half : json := JObj items_two_and_a_half.

(** ** Notions used in the statements *)

(** The click rows recorded for a shortcode, in insertion order. *)
Definition recorded_clicks (db : DB) (code : str) : list Click.t :=
  List.filter (λ c, bool_decide (Click.shortcode c = code)) (clicks db).

(** The text of a stored timestamp: its fields in UTC and the letter Z. *)
Definition iso_z (column : Z) : str := isoformat_fields column ++ lit "Z".

(** The entry of [clickData] for a click row. *)
Definition render_click (c : Click.t) : click_entry :=
  {| ce_timestamp := iso_z (Click.timestamp c);
     ce_referrer := Click.referrer c;
     ce_location := or_unknown (Click.location c);
     ce_ip := Click.ip c;
     ce_user_agent := Click.user_agent c |}.

Definition no_plus (s : str) : Prop := Forall (λ c, c ≠ 43%N) s.

(** A row as [create_shorturl] writes it: it sits under its own shortcode,
    the shortcode has the format of [SHORTCODE_RE] and fits the [String(64)]
    column, and the expiry is later than the creation. *)
Definition row_ok (k : str) (s : ShortURL.t) : Prop :=
  ShortURL.shortcode s = k
  ∧ SHORTCODE_RE_match k = true
  ∧ (length k ≤ 64)%nat
  ∧ ShortURL.created_at s < ShortURL.expiry s.

(** The routes of lines 128, 207 and 236, each with what its handler meets
    besides the store. *)
Inductive http_request :=
  | PostShorturls (e : create_env) (data : json)
  | GetShorturlStats (shortcode : str)
  | GetShortcode (e : redirect_env) (req : request) (shortcode : str).

Section application.
Context `{PyRuntime}.

(** One request: the response the client receives and the store after it. *)
Definition handle (rq : http_request) (db : DB) : response * DB :=
  match rq with
  | PostShorturls e data =>
      let '(r, db') := create_shorturl e data db in (serve r, db')
  | GetShorturlStats shortcode => (serve (get_shorturl_stats shortcode db), db)
  | GetShortcode e req shortcode =>
      let '(r, db') := redirect_to_original e req shortcode db in (serve r, db')
  end.

(** The store after a sequence of requests. *)
Fixpoint run (rqs : list http_request) (db : DB) : DB :=
  match rqs with
  | [] => db
  | rq :: rest => run rest (handle rq db).2
  end.

End application.

(** [{"url": "https://example.com", "validity": 10000000000}] *)
Definition items_long_validity : list (str * json) :=
  [(lit "url", example_com); (lit "validity", JInt 10000000000)].

(** [{"url": "https://example.com", "validity": null}] *)
Definition items_null_validity : list (str * json) :=
  [(lit "url", example_com); (lit "validity", JNull)].

(** The commit of the creation fails. *)
Definition faulty_env : create_env :=
  {| ce_clock := t0; ce_rng := sample_rng; ce_racing := ∅; ce_fault := true |}.

(** A click on [abcd1] and one on another shortcode. *)
Definition click_abcd1 : Click.t :=
  {| Click.shortcode := lit "abcd1"; Click.timestamp := t0 + US_PER_SECOND;
     Click.referrer := None; Click.location := Some (lit "unknown");
     Click.ip := Some (lit "127.0.0.1"); Click.user_agent := None |}.

Definition click_other : Click.t :=
  {| Click.shortcode := lit "zzzz9"; Click.timestamp := t0;
     Click.referrer := None; Click.location := None;
     Click.ip := None; Click.user_agent := None |}.

(** * Properties *)

(** ** Text of timestamps *)

Lemma no_plus_app (a b : str) : no_plus a → no_plus b → no_plus (a ++ b).
Proof. unfold no_plus. intros Ha Hb. apply Forall_app. split; assumption. Qed.

Lemma no_plus_repeat_zero (k : nat) : no_plus (repeat 48%N k).
Proof.
  induction k as [|k IH]; simpl; constructor; [discriminate | exact IH].
Qed.

Lemma digits_aux_no_plus (fuel : nat) :
  ∀ n acc, no_plus acc → no_plus (digits_aux fuel n acc).
Proof.
  induction fuel as [|fuel IH]; intros n acc Hacc; simpl; [exact Hacc|].
  assert (Hd : no_plus ((48 + Z.to_N (n `mod` 10))%N :: acc)).
  { constructor; [lia | exact Hacc]. }
  destruct (n <? 10); [exact Hd | apply IH, Hd].
Qed.

Lemma fmt_d_no_plus (width : nat) (n : Z) : no_plus (fmt_d width n).
Proof.
  unfold fmt_d, zfill, digits.
  destruct (n <? 0).
  - constructor; [discriminate|].
    apply no_plus_app; [apply no_plus_repeat_zero|].
    apply digits_aux_no_plus. constructor.
  - apply no_plus_app; [apply no_plus_repeat_zero|].
    apply digits_aux_no_plus. constructor.
Qed.

Lemma no_plus_lit_punct :
  no_plus (lit "-") ∧ no_plus (lit "T") ∧ no_plus (lit ":") ∧ no_plus (lit ".")
  ∧ no_plus (lit "Z").
Proof. repeat split; repeat constructor; discriminate. Qed.

Lemma isoformat_fields_no_plus (w : Z) : no_plus (isoformat_fields w).
Proof.
  destruct no_plus_lit_punct as (Hm & HT & Hc & Hd & _).
  unfold isoformat_fields.
  destruct (ord2ymd _) as [[y m] d].
  repeat (apply no_plus_app; [first [apply fmt_d_no_plus | assumption] |]).
  destruct (_ =? 0); [constructor|].
  apply no_plus_app; [assumption | apply fmt_d_no_plus].
Qed.

Lemma startswith_offset_no_plus (c : N) (t : str) :
  c ≠ 43%N → startswith (lit "+00:00") (c :: t) = false.
Proof.
  intros Hc. change (lit "+00:00") with [43; 48; 48; 58; 48; 48]%N.
  cbn [startswith].
  destruct (N.eqb_spec 43 c) as [<-|_]; [congruence | reflexivity].
Qed.

Lemma replace_from_no_plus (b t : str) :
  no_plus b →
  replace_from (lit "+00:00") (lit "Z") 0 (b ++ t)
  = b ++ replace_from (lit "+00:00") (lit "Z") 0 t.
Proof.
  induction 1 as [|c b Hc Hb IH]; [reflexivity|].
  change ((c :: b) ++ t) with (c :: (b ++ t)).
  cbn [replace_from]. rewrite startswith_offset_no_plus by exact Hc.
  rewrite IH. reflexivity.
Qed.

Lemma contains_offset_no_plus (s : str) :
  no_plus s → contains (lit "+00:00") s = false.
Proof.
  induction 1 as [|c s Hc Hs IH]; [reflexivity|].
  cbn [contains]. rewrite startswith_offset_no_plus by exact Hc. exact IH.
Qed.

Lemma endswith_Z (b : str) : endswith (lit "Z") (b ++ lit "Z") = true.
Proof.
  unfold endswith. rewrite rev_app_distr. reflexivity.
Qed.

(** The text of a value in UTC: its fields followed by [Z]. *)
Lemma iso_utc_text (w : Z) :
  str_replace (lit "+00:00") (lit "Z")
    (isoformat {| wall := w; tzinfo := Some timezone_utc |})
  = isoformat_fields w ++ lit "Z".
Proof.
  unfold str_replace, isoformat. cbn [wall tzinfo].
  rewrite replace_from_no_plus by apply isoformat_fields_no_plus.
  reflexivity.
Qed.

Lemma to_iso_z_naive (w : Z) :
  to_iso_z {| wall := w; tzinfo := None |} = Ok (isoformat_fields w ++ lit "Z").
Proof. unfold to_iso_z. cbn. f_equal. apply iso_utc_text. Qed.

Lemma to_iso_z_utc (w : Z) :
  to_iso_z {| wall := w; tzinfo := Some timezone_utc |}
  = Ok (isoformat_fields w ++ lit "Z").
Proof. unfold to_iso_z. cbn. f_equal. apply iso_utc_text. Qed.

Lemma to_iso_z_inv (dt : datetime) (s : str) :
  to_iso_z dt = Ok s → ∃ w, s = isoformat_fields w ++ lit "Z".
Proof.
  unfold to_iso_z, astimezone_utc.
  destruct (_ =? timezone_utc); cbn.
  - intros [= <-]. eexists. apply iso_utc_text.
  - destruct (in_range _); cbn; [|discriminate].
    intros [= <-]. eexists. apply iso_utc_text.
Qed.

Lemma iso_text_shape (w : Z) :
  endswith (lit "Z") (isoformat_fields w ++ lit "Z") = true
  ∧ contains (lit "+00:00") (isoformat_fields w ++ lit "Z") = false.
Proof.
  split; [apply endswith_Z|].
  apply contains_offset_no_plus, no_plus_app;
    [apply isoformat_fields_no_plus | apply no_plus_lit_punct].
Qed.

(** C9. Every text [to_iso_z] returns ends in the letter Z and has no
    [+00:00] in it; for a naive value (as read back from the store) and for
    a value in UTC it always returns one, the ISO-8601 fields of the value
    followed by Z. *)
Theorem to_iso_z_ends_in_Z (dt : datetime) :
  (∀ s, to_iso_z dt = Ok s →
        endswith (lit "Z") s = true ∧ contains (lit "+00:00") s = false)
  ∧ (tzinfo dt = None ∨ tzinfo dt = Some timezone_utc →
     to_iso_z dt = Ok (isoformat_fields (wall dt) ++ lit "Z")).
Proof.
  split.
  - intros s Hs. apply to_iso_z_inv in Hs as [w ->]. apply iso_text_shape.
  - destruct dt as [w tz]. cbn [tzinfo wall].
    intros [-> | ->]; [apply to_iso_z_naive | apply to_iso_z_utc].
Qed.

Lemma to_iso_z_ends_in_Z_witness :
  endswith (lit "Z") (lit "2024-01-01T00:00:00Z") = true
  ∧ contains (lit "+00:00") (lit "2024-01-01T00:00:00Z") = false
  ∧ to_iso_z (load_DateTime t0) = Ok (lit "2024-01-01T00:00:00Z").
Proof.
  pose proof (to_iso_z_ends_in_Z (load_DateTime t0)) as [Hshape Hret].
  assert (Ht : to_iso_z (load_DateTime t0) = Ok (lit "2024-01-01T00:00:00Z")).
  { rewrite Hret; [reflexivity | left; reflexivity]. }
  destruct (Hshape _ Ht) as [He Hc].
  split; [exact He | split; [exact Hc | exact Ht]].
Defined.

(** ** Statistics *)

#[global] Instance timestamp_le_total : Total timestamp_le.
Proof. intros a b. unfold timestamp_le. lia. Qed.

#[global] Instance timestamp_le_trans : Transitive timestamp_le.
Proof. intros a b c. unfold timestamp_le. lia. Qed.

Lemma click_json_render (c : Click.t) : click_json c = Ok (render_click c).
Proof.
  unfold click_json, load_DateTime. rewrite to_iso_z_naive. reflexivity.
Qed.

Lemma mapM_click_json (l : list Click.t) :
  mapM click_json l = Ok (List.map render_click l).
Proof.
  induction l as [|c l IH]; [reflexivity|].
  cbn [mapM]. rewrite click_json_render, IH. reflexivity.
Qed.

Lemma insert_by_timestamp_perm (c : Click.t) (l : list Click.t) :
  insert_by_timestamp c l ≡ₚ c :: l.
Proof.
  induction l as [|d l IH]; [reflexivity|].
  cbn [insert_by_timestamp]. destruct (bool_decide _); [reflexivity|].
  rewrite IH. apply Permutation_swap.
Qed.

Lemma order_by_timestamp_perm (l : list Click.t) : order_by_timestamp l ≡ₚ l.
Proof.
  induction l as [|c l IH]; [reflexivity|].
  cbn [order_by_timestamp]. rewrite insert_by_timestamp_perm, IH. reflexivity.
Qed.

Lemma insert_by_timestamp_sorted (c : Click.t) (l : list Click.t) :
  StronglySorted timestamp_le l →
  StronglySorted timestamp_le (insert_by_timestamp c l).
Proof.
  induction 1 as [|d l Hl IH Hd]; [repeat constructor|].
  cbn [insert_by_timestamp].
  destruct (bool_decide (timestamp_le c d)) eqn:Hcd.
  - apply bool_decide_eq_true in Hcd.
    constructor; [constructor; assumption|].
    constructor; [exact Hcd|].
    eapply Forall_impl; [exact Hd|]. intros x Hx. etransitivity; eassumption.
  - apply bool_decide_eq_false in Hcd.
    constructor; [exact IH|].
    rewrite insert_by_timestamp_perm. constructor; [|exact Hd].
    destruct (total timestamp_le c d); [contradiction | assumption].
Qed.

Lemma order_by_timestamp_sorted (l : list Click.t) :
  StronglySorted timestamp_le (order_by_timestamp l).
Proof.
  induction l as [|c l IH]; [constructor|].
  cbn [order_by_timestamp]. apply insert_by_timestamp_sorted, IH.
Qed.

Lemma query_clicks_perm (db : DB) (code : str) :
  query_clicks db code ≡ₚ recorded_clicks db code.
Proof. apply order_by_timestamp_perm. Qed.

(** C8. The statistics of a known shortcode count the click rows recorded
    for it and list exactly those rows by ascending timestamp; an unknown
    shortcode is answered 404. *)
Theorem stats_count_and_order (db : DB) (code : str) :
  match query_shorturl db code with
  | None =>
      get_shorturl_stats code db = Ok (error_response 404 "Shortcode not found")
  | Some s =>
      get_shorturl_stats code db
      = Ok {| status := 200;
              payload :=
                StatsBody (length (recorded_clicks db code))
                          (ShortURL.original_url s)
                          (iso_z (ShortURL.created_at s))
                          (iso_z (ShortURL.expiry s))
                          (List.map render_click (query_clicks db code)) |}
      ∧ query_clicks db code ≡ₚ recorded_clicks db code
      ∧ StronglySorted timestamp_le (query_clicks db code)
  end.
Proof.
  unfold get_shorturl_stats.
  destruct (query_shorturl db code) as [s|]; [|reflexivity].
  split; [|split].
  - rewrite mapM_click_json. unfold load_DateTime.
    rewrite !to_iso_z_naive. cbn.
    rewrite length_map, (Permutation_length (query_clicks_perm db code)).
    reflexivity.
  - apply query_clicks_perm.
  - apply order_by_timestamp_sorted.
Qed.

(** ** Creation *)

Section create_props.
Context `{PyRuntime}.

Lemma status_error_response (code : Z) (msg : string) :
  status (error_response code msg) = code.
Proof. reflexivity. Qed.

Lemma dict_get_truthy_nonempty (items : list (str * json)) (key : str) :
  truthy (dict_get items key JNull) = true → truthy (JObj items) = true.
Proof. destruct items as [|[k v] rest]; [discriminate | reflexivity]. Qed.

Lemma dict_get_absent (items : list (str * json)) (key : str) (default : json) :
  dict_has items key = false → dict_get items key default = default.
Proof.
  induction items as [|[k v] rest IH]; [reflexivity|].
  cbn. destruct (bool_decide (k = key)); [discriminate | exact IH].
Qed.

Lemma parse_validity_Some (validity : json) (v : Z) :
  parse_validity validity = Some v ↔ py_int validity = Ok v ∧ 0 < v.
Proof.
  unfold parse_validity. destruct (py_int validity) as [n|ex].
  - destruct (Z.leb_spec n 0); split.
    + discriminate.
    + intros [[= ->] ?]. lia.
    + intros [= ->]. split; [reflexivity | lia].
    + intros [[= ->] _]. reflexivity.
  - split; [discriminate | intros [[=] _]].
Qed.

(** A body that passes the checks of lines 139-153 goes on to the
    resolution of its shortcode and, with one, to the insertion. *)
Lemma create_validated (e : create_env) (items : list (str * json)) (db : DB)
    (v : Z) :
  passes_validation items v →
  create_shorturl e (JObj items) db
  = match resolve_shortcode (dict_get items (lit "shortcode") JNull) db (ce_rng e) with
    | inl resp => (Ok resp, db)
    | inr code =>
        insert_link e db (text_of (dict_get items (lit "url") JNull)) v code
    end.
Proof.
  intros (Hurl & Hvalid & Hparse). unfold create_shorturl.
  rewrite (dict_get_truthy_nonempty _ _ Hurl), Hurl, Hvalid, Hparse.
  reflexivity.
Qed.

Lemma expiry_of_Ok (e : create_env) (v : Z) (exp : datetime) :
  expiry_of e v = Ok exp →
  exp = {| wall := ce_clock e + v * US_PER_MINUTE; tzinfo := Some timezone_utc |}.
Proof.
  unfold expiry_of, timedelta_minutes, datetime_add.
  destruct (_ <=? 999999999); cbn; [|discriminate].
  destruct (in_range _); [|discriminate].
  intros [= <-]. reflexivity.
Qed.

Lemma insert_link_created (e : create_env) (db : DB) (url code : str) (v : Z)
    (exp : datetime) :
  expiry_of e v = Ok exp →
  (shorturls db ∪ ce_racing e) !! code = None →
  ce_fault e = false →
  insert_link e db url v code
  = (Ok {| status := 201;
           payload := CreatedBody (short_link code) (iso_z (wall exp)) |},
     {| shorturls :=
          <[code := new_row code url (created_at_of e) exp]>
            (shorturls db ∪ ce_racing e);
        clicks := clicks db |}).
Proof.
  intros Hexp Hfree Hfault. unfold insert_link, commit_shorturl.
  rewrite Hexp, Hfault. cbn. rewrite Hfree.
  apply expiry_of_Ok in Hexp as ->. rewrite to_iso_z_utc. reflexivity.
Qed.

Lemma insert_link_conflict (e : create_env) (db : DB) (url code : str) (v : Z)
    (exp : datetime) (s : ShortURL.t) :
  expiry_of e v = Ok exp →
  (shorturls db ∪ ce_racing e) !! code = Some s →
  ce_fault e = false →
  insert_link e db url v code
  = (Ok (error_response 409
           "Shortcode collision occurred (try a different custom shortcode)"),
     concurrent_writes (ce_racing e) db).
Proof.
  intros Hexp Hreg Hfault. unfold insert_link, commit_shorturl.
  rewrite Hexp, Hfault. cbn. rewrite Hreg. reflexivity.
Qed.

Lemma insert_link_201_inv (e : create_env) (db db' : DB) (url code : str) (v : Z)
    (r : res response) :
  insert_link e db url v code = (r, db') →
  status (serve r) = 201 →
  ∃ exp, expiry_of e v = Ok exp
         ∧ (shorturls db ∪ ce_racing e) !! code = None
         ∧ ce_fault e = false.
Proof.
  unfold insert_link, commit_shorturl.
  destruct (expiry_of e v) as [exp|ex]; [|intros [= <- _]; discriminate].
  destruct (ce_fault e); [intros [= <- _]; discriminate|].
  cbn. destruct ((shorturls db ∪ ce_racing e) !! code) eqn:Hreg;
    [intros [= <- _]; discriminate|].
  intros _ _. exists exp. auto.
Qed.

Lemma create_201_inv (e : create_env) (data : json) (db db' : DB)
    (r : res response) :
  create_shorturl e data db = (r, db') →
  status (serve r) = 201 →
  ∃ items v code,
    data = JObj items
    ∧ passes_validation items v
    ∧ resolve_shortcode (dict_get items (lit "shortcode") JNull) db (ce_rng e)
      = inr code
    ∧ insert_link e db (text_of (dict_get items (lit "url") JNull)) v code
      = (r, db').
Proof.
  unfold create_shorturl.
  destruct (truthy data) eqn:Hdata; cbn [negb];
    [|intros [= <- _]; discriminate].
  destruct data as [| | | | | |items]; try (intros [= <- _]; discriminate).
  destruct (truthy (dict_get items (lit "url") JNull)) eqn:Hurl; cbn [negb orb];
    [|intros [= <- _]; discriminate].
  destruct (validate_url _) eqn:Hvalid; cbn [negb];
    [|intros [= <- _]; discriminate].
  destruct (parse_validity _) as [v|] eqn:Hparse;
    [|intros [= <- _]; discriminate].
  destruct (resolve_shortcode _ db (ce_rng e)) as [resp|code] eqn:Hres.
  - intros [= <- _] Hst. exfalso. revert Hst Hres. unfold resolve_shortcode.
    repeat case_match; intros; simplify_eq; discriminate.
  - intros Hins _. exists items, v, code. unfold passes_validation. auto.
Qed.

(** X20. A creation that succeeds stores a link whose expiry is its creation
    time plus exactly [v] minutes, hence later, where [v] is the whole
    number the body gives as validity, 30 when the body has no such field,
    and in every case what [int] makes of the field. *)
Theorem created_link_expiry (e : create_env) (data : json) (db db' : DB)
    (r : res response) :
  create_shorturl e data db = (r, db') →
  status (serve r) = 201 →
  ∃ items v code row,
    data = JObj items
    ∧ py_int (dict_get items (lit "validity") (JInt 30)) = Ok v
    ∧ 0 < v
    ∧ (dict_has items (lit "validity") = false → v = 30)
    ∧ (∀ n, dict_get items (lit "validity") (JInt 30) = JInt n → v = n)
    ∧ shorturls db' !! code = Some row
    ∧ ShortURL.created_at row = ce_clock e
    ∧ ShortURL.expiry row = ShortURL.created_at row + v * US_PER_MINUTE
    ∧ ShortURL.created_at row < ShortURL.expiry row
    ∧ r = Ok {| status := 201;
                payload := CreatedBody (short_link code)
                                       (iso_z (ShortURL.expiry row)) |}.
Proof.
  intros Hrun Hst.
  destruct (create_201_inv _ _ _ _ _ Hrun Hst)
    as (items & v & code & -> & (Hurl & Hvalid & Hparse) & Hres & Hins).
  destruct (insert_link_201_inv _ _ _ _ _ _ _ Hins Hst)
    as (exp & Hexp & Hfree & Hfault).
  rewrite (insert_link_created _ _ _ _ _ _ Hexp Hfree Hfault) in Hins.
  injection Hins as <- <-.
  apply parse_validity_Some in Hparse as [Hint Hpos].
  exists items, v, code,
    (new_row code (text_of (dict_get items (lit "url") JNull)) (created_at_of e) exp).
  apply expiry_of_Ok in Hexp as ->.
  repeat split; try assumption; try reflexivity.
  - intros Habs. rewrite (dict_get_absent _ _ _ Habs) in Hint.
    injection Hint as <-. reflexivity.
  - intros n Hn. rewrite Hn in Hint. injection Hint as <-. reflexivity.
  - cbn. apply lookup_insert_eq.
  - cbn. unfold US_PER_MINUTE, US_PER_SECOND. lia.
Qed.

End create_props.

Lemma created_link_expiry_witness :
  let run := @create_shorturl sample_runtime (sample_env t0) body_abcd1 empty_db in
  status (serve run.1) = 201
  ∧ ∃ code row,
      shorturls run.2 !! code = Some row
      ∧ ShortURL.created_at row = t0
      ∧ ShortURL.expiry row = t0 + 1 * US_PER_MINUTE
      ∧ run.1 = Ok {| status := 201;
                      payload := CreatedBody (short_link code)
                                             (iso_z (t0 + 1 * US_PER_MINUTE)) |}.
Proof.
  intros run.
  assert (Hst : status (serve run.1) = 201) by (vm_compute; reflexivity).
  split; [exact Hst|].
  destruct (@created_link_expiry sample_runtime (sample_env t0) body_abcd1 empty_db
              run.2 run.1 (surjective_pairing run) Hst)
    as (items & v & code & row & Hitems & _ & _ & _ & Hwhole & Hrow & Hcreated
        & Hexpiry & _ & Hresp).
  injection Hitems as <-.
  rewrite (Hwhole 1 eq_refl) in Hexpiry. rewrite Hcreated in Hexpiry.
  exists code, row.
  split; [exact Hrow|]. split; [exact Hcreated|]. split; [exact Hexpiry|].
  rewrite Hresp, Hexpiry. reflexivity.
Defined.

(** C5, on the code.  [{"url": ..., "validity": 2.5}] is answered 201, and
    the stored expiry is the creation time plus 2 minutes, not plus the 2.5
    minutes of the body: [int] on line 149 has cut the validity down. *)
Theorem fractional_validity_shortens_expiry :
  let run := @create_shorturl sample_runtime (sample_env t0) body_two_and_a_half
               empty_db in
  status (serve run.1) = 201
  ∧ ∃ row,
      query_shorturl run.2 (lit "abcdef") = Some row
      ∧ ShortURL.created_at row = t0
      ∧ ShortURL.expiry row = ShortURL.created_at row + 2 * US_PER_MINUTE
      ∧ 2 * (ShortURL.expiry row - ShortURL.created_at row) ≠ 5 * US_PER_MINUTE.
Proof.
  cbn zeta. split; [vm_compute; reflexivity|].
  exists {| ShortURL.shortcode := lit "abcdef";
            ShortURL.original_url := lit "https://example.com";
            ShortURL.created_at := t0;
            ShortURL.expiry := t0 + 2 * US_PER_MINUTE |}.
  split; [vm_compute; reflexivity|].
  split; [reflexivity|]. split; [reflexivity|].
  vm_compute. discriminate.
Qed.

(** ** Allocation of a generated shortcode *)

Section allocation.
Context `{PyRuntime}.

Lemma generate_shortcode_length (len : nat) (g : rng) :
  length (generate_shortcode len g).1 = len.
Proof.
  unfold generate_shortcode, random_choices. cbn [fst].
  rewrite length_map, length_seq. reflexivity.
Qed.

Lemma generate_shortcode_alphabet (len : nat) (g : rng) :
  Forall (λ ch, ch ∈ ALPHABET) (generate_shortcode len g).1.
Proof.
  unfold generate_shortcode, random_choices. cbn [fst].
  apply Forall_forall. intros ch Hin.
  apply list_elem_of_In, in_map_iff in Hin as (i & <- & _).
  apply list_elem_of_In, nth_In, Nat.mod_upper_bound. discriminate.
Qed.

Lemma truthy_code_Some (c : str) : c ≠ [] → truthy_code (Some c) = true.
Proof. intros Hc. destruct c; [congruence | reflexivity]. Qed.

Lemma attempts_as_plan (n len : nat) (db : DB) (g : rng) :
  attempts n len db g = first_unoccupied (repeat len n) db g.
Proof.
  revert g. induction n as [|n IH]; intros g; [reflexivity|].
  cbn [attempts repeat first_unoccupied].
  destruct (generate_shortcode len g) as [c g'].
  destruct (query_shorturl db c) as [s|] eqn:Hq.
  - rewrite bool_decide_eq_true_2 by eauto. apply IH.
  - rewrite bool_decide_eq_false_2; [reflexivity|]. intros [? [=]].
Qed.

Lemma first_unoccupied_app (p q : list nat) (db : DB) (g : rng) :
  first_unoccupied (p ++ q) db g
  = match first_unoccupied p db g with
    | (Some c, g') => (Some c, g')
    | (None, g') => first_unoccupied q db g'
    end.
Proof.
  revert g. induction p as [|len p IH]; intros g; [reflexivity|].
  cbn [app first_unoccupied].
  destruct (generate_shortcode len g) as [c g'].
  destruct (bool_decide _); [apply IH | reflexivity].
Qed.

(** What an allocation returns is unoccupied and was drawn at one of the
    lengths of the plan. *)
Lemma first_unoccupied_Some (plan : list nat) (db : DB) (g g' : rng) (c : str) :
  first_unoccupied plan db g = (Some c, g') →
  query_shorturl db c = None
  ∧ length c ∈ plan
  ∧ Forall (λ ch, ch ∈ ALPHABET) c.
Proof.
  revert g. induction plan as [|len plan IH]; intros g; [discriminate|].
  cbn [first_unoccupied].
  pose proof (generate_shortcode_length len g) as Hlen.
  pose proof (generate_shortcode_alphabet len g) as Hal.
  destruct (generate_shortcode len g) as [c0 g0]. cbn [fst] in Hlen, Hal.
  destruct (bool_decide _) eqn:Hocc.
  - intros Hrec. destruct (IH _ Hrec) as (? & ? & ?).
    split; [assumption | split; [right; assumption | assumption]].
  - intros [= <- <-]. apply bool_decide_eq_false in Hocc.
    split; [|split; [rewrite Hlen; left | assumption]].
    destruct (query_shorturl db c0) eqn:Hq; [exfalso; eauto | reflexivity].
Qed.

Lemma first_unoccupied_truthy (plan : list nat) (db : DB) (g : rng) :
  Forall (λ len, len ≠ O) plan →
  truthy_code (first_unoccupied plan db g).1
  = bool_decide (is_Some (first_unoccupied plan db g).1).
Proof.
  intros Hplan.
  destruct (first_unoccupied plan db g) as [[c|] g'] eqn:Hrun; [|reflexivity].
  cbn [fst]. apply first_unoccupied_Some in Hrun as (_ & Hlen & _).
  rewrite bool_decide_eq_true_2 by eauto.
  apply truthy_code_Some. intros ->.
  rewrite Forall_forall in Hplan. apply (Hplan _ Hlen). reflexivity.
Qed.

Lemma try_lengths_as_plan (lens : list nat) (db : DB) (g : rng) :
  Forall (λ len, len ≠ O) lens →
  try_lengths lens db g
  = first_unoccupied (concat (List.map (λ len, repeat len 6) lens)) db g.
Proof.
  intros Hlens. revert g.
  induction Hlens as [|len lens Hlen Hrest IH]; intros g; [reflexivity|].
  cbn [try_lengths List.map concat]. rewrite first_unoccupied_app.
  rewrite attempts_as_plan.
  assert (Hsix : Forall (λ l, l ≠ O) (repeat len 6)).
  { repeat constructor; assumption. }
  pose proof (first_unoccupied_truthy _ db g Hsix) as Htr.
  destruct (first_unoccupied (repeat len 6) db g) as [[c|] g'];
    cbn [fst] in Htr; rewrite Htr.
  - reflexivity.
  - apply IH.
Qed.

Lemma generate_unique_spec (db : DB) (g : rng) :
  generate_unique db g = allocate_spec db g.
Proof.
  unfold generate_unique, allocate_spec.
  rewrite try_lengths_as_plan; [|repeat constructor; discriminate].
  change (concat _) with draw_plan.
  assert (Hplan : Forall (λ l, l ≠ O) draw_plan).
  { unfold draw_plan. cbn. repeat (constructor; [discriminate|]). constructor. }
  pose proof (first_unoccupied_truthy _ db g Hplan) as Htr.
  destruct (first_unoccupied draw_plan db g) as [[c|] g'];
    cbn [fst] in Htr; [rewrite Htr; reflexivity|].
  clear Htr. cbn [truthy_code first_unoccupied].
  destruct (generate_shortcode 10 g') as [c g''].
  destruct (query_shorturl db c) as [s|] eqn:Hq.
  - rewrite bool_decide_eq_true_2 by eauto. reflexivity.
  - rewrite bool_decide_eq_false_2; [reflexivity|]. intros [? [=]].
Qed.

End allocation.

Section allocation_claim.
Context `{PyRuntime}.

Lemma resolve_shortcode_falsy (custom : json) (db : DB) (g : rng) :
  truthy custom = false →
  resolve_shortcode custom db g
  = match (generate_unique db g).1 with
    | None => inl (error_response 500
                     "Could not generate a unique shortcode. Try again.")
    | Some shortcode => inr shortcode
    end.
Proof. intros Hc. unfold resolve_shortcode. rewrite Hc. reflexivity. Qed.

Lemma first_unoccupied_None (plan : list nat) (db : DB) (g g' : rng) :
  first_unoccupied plan db g = (None, g') →
  cursor g' = (cursor g + sum_list plan)%nat.
Proof.
  revert g. induction plan as [|len plan IH]; intros g.
  - intros [= <-]. cbn. lia.
  - cbn [first_unoccupied sum_list].
    destruct (generate_shortcode len g) as [c g0] eqn:Hgen.
    destruct (bool_decide _); [|discriminate].
    intros Hrec. rewrite (IH _ Hrec).
    unfold generate_shortcode, random_choices in Hgen.
    injection Hgen as _ <-. cbn. lia.
Qed.

Lemma draw_plan_lengths : Forall (λ len, len ∈ [6; 7; 8; 10]%nat) draw_plan.
Proof.
  unfold draw_plan. cbn.
  repeat (constructor;
          [repeat first [apply list_elem_of_here | apply list_elem_of_further]|]).
  constructor.
Qed.

(** C4. Without a custom shortcode the handler draws at length 6, 7 and 8,
    six times each, checks every draw against the registry and keeps the
    first unoccupied candidate; after 18 occupied draws it draws once at
    length 10, and when that candidate is occupied too the request is
    answered 500. *)
Theorem generated_shortcode_allocation (e : create_env)
    (items : list (str * json)) (db : DB) (v : Z) :
  generate_unique db (ce_rng e) = allocate_spec db (ce_rng e)
  ∧ draw_plan = [6; 6; 6; 6; 6; 6; 7; 7; 7; 7; 7; 7; 8; 8; 8; 8; 8; 8]%nat
  ∧ (∀ c g', generate_unique db (ce_rng e) = (Some c, g') →
             query_shorturl db c = None
             ∧ length c ∈ [6; 7; 8; 10]%nat
             ∧ Forall (λ ch, ch ∈ ALPHABET) c)
  ∧ ((generate_unique db (ce_rng e)).1 = None →
     cursor (generate_unique db (ce_rng e)).2
     = (cursor (ce_rng e) + (6 * 6 + 6 * 7 + 6 * 8 + 10))%nat)
  ∧ (truthy (dict_get items (lit "shortcode") JNull) = false →
     passes_validation items v →
     (generate_unique db (ce_rng e)).1 = None →
     create_shorturl e (JObj items) db
     = (Ok (error_response 500
              "Could not generate a unique shortcode. Try again."), db)).
Proof.
  split; [apply generate_unique_spec|].
  split; [reflexivity|].
  split; [|split].
  - intros c g'. rewrite generate_unique_spec. unfold allocate_spec.
    destruct (first_unoccupied draw_plan db (ce_rng e)) as [[c0|] g0] eqn:Hrun.
    + intros [= <- <-].
      apply first_unoccupied_Some in Hrun as (Hfree & Hlen & Hal).
      split; [assumption | split; [|assumption]].
      exact (proj1 (Forall_forall _ _) draw_plan_lengths _ Hlen).
    + intros Hfin.
      apply first_unoccupied_Some in Hfin as (Hfree & Hlen & Hal).
      split; [assumption | split; [|assumption]].
      apply list_elem_of_singleton in Hlen as ->.
      do 3 apply list_elem_of_further. apply list_elem_of_here.
  - rewrite generate_unique_spec. unfold allocate_spec.
    destruct (first_unoccupied draw_plan db (ce_rng e)) as [[c0|] g0] eqn:Hrun;
      [discriminate|].
    destruct (first_unoccupied [10%nat] db g0) as [[c1|] g1] eqn:Hfin;
      [discriminate|].
    intros _. cbn [snd].
    apply first_unoccupied_None in Hrun, Hfin. rewrite Hfin, Hrun.
    unfold draw_plan. cbn. lia.
  - intros Hcustom Hvalid Hnone.
    rewrite (create_validated _ _ _ _ Hvalid).
    rewrite (resolve_shortcode_falsy _ _ _ Hcustom), Hnone. reflexivity.
Qed.

End allocation_claim.

Lemma generated_shortcode_allocation_witness :
  truthy (dict_get items_url_only (lit "shortcode") JNull) = false
  ∧ @passes_validation sample_runtime items_url_only 30
  ∧ (generate_unique crowded_db sample_rng).1 = None
  ∧ @create_shorturl sample_runtime (sample_env t0) body_url_only crowded_db
    = (Ok (error_response 500
             "Could not generate a unique shortcode. Try again."), crowded_db).
Proof.
  assert (Hc : truthy (dict_get items_url_only (lit "shortcode") JNull) = false)
    by reflexivity.
  assert (Hv : @passes_validation sample_runtime items_url_only 30)
    by (repeat split; vm_compute; reflexivity).
  assert (Hn : (generate_unique crowded_db sample_rng).1 = None)
    by (vm_compute; reflexivity).
  repeat (split; [assumption|]).
  destruct (@generated_shortcode_allocation sample_runtime (sample_env t0)
              items_url_only crowded_db 30) as (_ & _ & _ & _ & Hfail).
  exact (Hfail Hc Hv Hn).
Defined.

(** ** Custom shortcodes *)

Lemma lstrip_with_head (p : N → bool) (s : str) (x : N) (t : str) :
  lstrip_with p s = x :: t → p x = false.
Proof.
  induction s as [|c s IH]; [discriminate|].
  cbn [lstrip_with]. destruct (p c) eqn:Hp; [exact IH|].
  intros [= <- _]. exact Hp.
Qed.

Lemma rstrip_with_last (p : N → bool) (s l : str) (x : N) :
  rstrip_with p s = l ++ [x] → p x = false.
Proof.
  unfold rstrip_with. intros Heq.
  apply (f_equal (@rev N)) in Heq. rewrite rev_involutive, rev_app_distr in Heq.
  exact (lstrip_with_head _ _ _ _ Heq).
Qed.

(** A stripped string does not end in a newline, so [$] is the end of the
    string, and the pattern asks for 4 to 64 characters of the class. *)
Lemma SHORTCODE_RE_match_stripped (x : str) :
  SHORTCODE_RE_match (strip x) = true
  ↔ (4 ≤ length (strip x) ≤ 64)%nat ∧ Forall (λ ch, is_alnum ch = true) (strip x).
Proof.
  set (c := strip x).
  assert (Hnl : ∀ l, c ≠ l ++ [10%N]).
  { intros l Heq. apply rstrip_with_last in Heq. discriminate. }
  unfold SHORTCODE_RE_match. rewrite existsb_exists. split.
  - intros (k & Hk & Hm). apply in_seq in Hk.
    apply andb_prop in Hm as [Hm Hend]. apply andb_prop in Hm as [Hlen Hal].
    apply Nat.eqb_eq in Hlen. unfold at_end in Hend.
    apply orb_prop in Hend as [Hend | Hend]; apply bool_decide_eq_true in Hend.
    + assert (Hc : take k c = c).
      { rewrite <- (take_drop k c) at 2. rewrite Hend, app_nil_r. reflexivity. }
      rewrite Hc in Hlen, Hal. split; [lia|].
      apply Forall_forall. intros ch Hin. apply list_elem_of_In in Hin.
      exact (proj1 (forallb_forall _ _) Hal _ Hin).
    + exfalso. apply (Hnl (take k c)). rewrite <- Hend. symmetry. apply take_drop.
  - intros [Hlen Hal]. exists (length c). split; [apply in_seq; lia|].
    rewrite firstn_all, drop_all, Nat.eqb_refl. cbn.
    rewrite andb_true_r. apply forallb_forall. intros ch Hin.
    apply list_elem_of_In in Hin. exact (proj1 (Forall_forall _ _) Hal _ Hin).
Qed.

Section custom_props.
Context `{PyRuntime}.

Lemma resolve_shortcode_custom (custom : json) (db : DB) (g : rng) :
  truthy custom = true →
  resolve_shortcode custom db g
  = let c := strip (py_str custom) in
    if negb (SHORTCODE_RE_match c) then
      inl (error_response 400
             "Provided 'shortcode' invalid. Must be alphanumeric and length 4-64.")
    else match query_shorturl db c with
         | Some _ => inl (error_response 409 "Shortcode already in use")
         | None => inr c
         end.
Proof. intros Hc. unfold resolve_shortcode. rewrite Hc. reflexivity. Qed.

(** A request that names a registered shortcode never reaches the commit. *)
Lemma create_registered_custom (e : create_env) (items : list (str * json))
    (db : DB) (s : ShortURL.t) :
  truthy (dict_get items (lit "shortcode") JNull) = true →
  query_shorturl db (strip (py_str (dict_get items (lit "shortcode") JNull)))
  = Some s →
  (create_shorturl e (JObj items) db).2 = db
  ∧ status (serve (create_shorturl e (JObj items) db).1) ≠ 201.
Proof.
  intros Hcustom Hreg. unfold create_shorturl.
  rewrite (dict_get_truthy_nonempty _ _ Hcustom). cbn [negb].
  destruct (negb _ || negb _); [split; [reflexivity | discriminate]|].
  destruct (parse_validity _); [|split; [reflexivity | discriminate]].
  rewrite (resolve_shortcode_custom _ _ _ Hcustom). cbn zeta. rewrite Hreg.
  destruct (negb _); split; first [reflexivity | discriminate].
Qed.

(** C3. A creation request whose custom shortcode is registered is answered
    409, at the check of line 161 or at the commit when another writer
    registered it in between, and the registered row stays as it is. *)
Theorem registered_custom_shortcode_conflict (e : create_env)
    (items : list (str * json)) (db : DB) (v : Z) (c : str) (s : ShortURL.t) :
  truthy (dict_get items (lit "shortcode") JNull) = true →
  c = strip (py_str (dict_get items (lit "shortcode") JNull)) →
  (query_shorturl db c = Some s →
     (create_shorturl e (JObj items) db).2 = db
     ∧ status (serve (create_shorturl e (JObj items) db).1) ≠ 201
     ∧ (passes_validation items v → SHORTCODE_RE_match c = true →
        create_shorturl e (JObj items) db
        = (Ok (error_response 409 "Shortcode already in use"), db)))
  ∧ (query_shorturl db c = None → ce_racing e !! c = Some s →
     passes_validation items v → SHORTCODE_RE_match c = true →
     (∃ exp, expiry_of e v = Ok exp) → ce_fault e = false →
     create_shorturl e (JObj items) db
     = (Ok (error_response 409
              "Shortcode collision occurred (try a different custom shortcode)"),
        concurrent_writes (ce_racing e) db)
     ∧ query_shorturl (concurrent_writes (ce_racing e) db) c = Some s).
Proof.
  intros Hcustom ->. split.
  - intros Hreg.
    destruct (create_registered_custom e _ _ _ Hcustom Hreg) as [Hdb Hst].
    split; [exact Hdb | split; [exact Hst|]].
    intros Hvalid Hfmt. rewrite (create_validated _ _ _ _ Hvalid).
    rewrite (resolve_shortcode_custom _ _ _ Hcustom). cbn zeta.
    rewrite Hfmt, Hreg. reflexivity.
  - intros Hfree Hrace Hvalid Hfmt [exp Hexp] Hfault.
    assert (Hat : (shorturls db ∪ ce_racing e)
                    !! strip (py_str (dict_get items (lit "shortcode") JNull))
                  = Some s).
    { apply lookup_union_Some_raw. right. split; assumption. }
    split; [|exact Hat].
    rewrite (create_validated _ _ _ _ Hvalid).
    rewrite (resolve_shortcode_custom _ _ _ Hcustom). cbn zeta.
    rewrite Hfmt, Hfree. cbn [negb].
    exact (insert_link_conflict _ _ _ _ _ _ _ Hexp Hat Hfault).
Qed.

(** C7, as the code has it.  The candidate is the text of the supplied
    value with the surrounding whitespace removed.  It passes the format
    check exactly when it is 4 to 64 characters of A-Z, a-z, 0-9; a
    candidate that does not pass is answered 400 and nothing is stored; a
    link is created only for a candidate that passes, under that candidate;
    and a candidate that passes and is not registered becomes the shortcode
    of the created link. *)
Theorem custom_shortcode_stripped_format (e : create_env)
    (items : list (str * json)) (db : DB) (v : Z) (c : str) :
  truthy (dict_get items (lit "shortcode") JNull) = true →
  c = strip (py_str (dict_get items (lit "shortcode") JNull)) →
  passes_validation items v →
  (SHORTCODE_RE_match c = true
   ↔ (4 ≤ length c ≤ 64)%nat ∧ Forall (λ ch, is_alnum ch = true) c)
  ∧ (SHORTCODE_RE_match c = false →
     create_shorturl e (JObj items) db
     = (Ok (error_response 400
              "Provided 'shortcode' invalid. Must be alphanumeric and length 4-64."),
        db))
  ∧ (status (serve (create_shorturl e (JObj items) db).1) = 201 →
     SHORTCODE_RE_match c = true
     ∧ ∃ row, shorturls (create_shorturl e (JObj items) db).2 !! c = Some row
              ∧ ShortURL.shortcode row = c)
  ∧ (SHORTCODE_RE_match c = true → query_shorturl db c = None →
     ce_racing e !! c = None → ce_fault e = false →
     ∀ exp, expiry_of e v = Ok exp →
     create_shorturl e (JObj items) db
     = (Ok {| status := 201;
              payload := CreatedBody (short_link c) (iso_z (wall exp)) |},
        {| shorturls :=
             <[c := new_row c (text_of (dict_get items (lit "url") JNull))
                      (created_at_of e) exp]> (shorturls db ∪ ce_racing e);
           clicks := clicks db |})).
Proof.
  intros Hcustom -> Hvalid.
  set (c := strip (py_str (dict_get items (lit "shortcode") JNull))).
  pose proof (create_validated e _ db _ Hvalid) as Hrun.
  rewrite (resolve_shortcode_custom _ _ _ Hcustom) in Hrun. cbn zeta in Hrun.
  fold c in Hrun.
  split; [apply SHORTCODE_RE_match_stripped|].
  split; [|split].
  - intros Hfmt. rewrite Hrun, Hfmt. reflexivity.
  - rewrite Hrun.
    destruct (SHORTCODE_RE_match c); cbn [negb]; [|discriminate].
    destruct (query_shorturl db c); [discriminate|].
    destruct (insert_link _ _ _ _ _) as [r db'] eqn:Hins. cbn [fst snd].
    intros Hst. split; [reflexivity|].
    destruct (insert_link_201_inv _ _ _ _ _ _ _ Hins Hst)
      as (exp & Hexp & Hfree & Hfault).
    rewrite (insert_link_created _ _ _ _ _ _ Hexp Hfree Hfault) in Hins.
    injection Hins as _ <-. eexists. cbn [shorturls].
    split; [apply lookup_insert_eq | reflexivity].
  - intros Hfmt Hfree Hrace Hfault exp Hexp.
    rewrite Hrun, Hfmt, Hfree. cbn [negb].
    apply insert_link_created; [assumption | | assumption].
    apply lookup_union_None. split; assumption.
Qed.

(** C10. A [shortcode] field that is present and falsy is treated as no
    custom shortcode: the shortcode is resolved as for an absent field, the
    request is not answered 400, and the candidate the allocation returns
    becomes the shortcode of the created link. *)
Theorem falsy_shortcode_allocates (e : create_env)
    (items : list (str * json)) (db : DB) (v : Z) :
  dict_has items (lit "shortcode") = true →
  truthy (dict_get items (lit "shortcode") JNull) = false →
  passes_validation items v →
  resolve_shortcode (dict_get items (lit "shortcode") JNull) db (ce_rng e)
  = resolve_shortcode JNull db (ce_rng e)
  ∧ status (serve (create_shorturl e (JObj items) db).1) ≠ 400
  ∧ (∀ c g' exp,
       generate_unique db (ce_rng e) = (Some c, g') →
       expiry_of e v = Ok exp → ce_racing e !! c = None → ce_fault e = false →
       create_shorturl e (JObj items) db
       = (Ok {| status := 201;
                payload := CreatedBody (short_link c) (iso_z (wall exp)) |},
          {| shorturls :=
               <[c := new_row c (text_of (dict_get items (lit "url") JNull))
                        (created_at_of e) exp]> (shorturls db ∪ ce_racing e);
             clicks := clicks db |})).
Proof.
  intros _ Hfalsy Hvalid.
  pose proof (create_validated e _ db _ Hvalid) as Hrun.
  rewrite (resolve_shortcode_falsy _ _ _ Hfalsy) in Hrun.
  split; [|split].
  - rewrite (resolve_shortcode_falsy _ _ _ Hfalsy).
    rewrite resolve_shortcode_falsy by reflexivity. reflexivity.
  - rewrite Hrun. destruct (generate_unique db (ce_rng e)).1; [|discriminate].
    unfold insert_link, commit_shorturl.
    destruct (expiry_of e v) as [exp|ex] eqn:Hexp; [|discriminate].
    destruct (ce_fault e); [discriminate|]. cbn.
    destruct (_ !! _); [discriminate|]. cbn.
    apply expiry_of_Ok in Hexp as ->. rewrite to_iso_z_utc. discriminate.
  - intros c g' exp Hgen Hexp Hrace Hfault.
    rewrite Hrun, Hgen. cbn [fst].
    apply insert_link_created; [assumption | | assumption].
    apply lookup_union_None. split; [|assumption].
    rewrite generate_unique_spec in Hgen. unfold allocate_spec in Hgen.
    destruct (first_unoccupied draw_plan db (ce_rng e)) as [[c0|] g0] eqn:Hplan.
    + injection Hgen as -> ->.
      exact (proj1 (first_unoccupied_Some _ _ _ _ _ Hplan)).
    + exact (proj1 (first_unoccupied_Some _ _ _ _ _ Hgen)).
Qed.

End custom_props.

Lemma registered_custom_shortcode_conflict_witness :
  @create_shorturl sample_runtime (sample_env t0) body_abcd1 db_abcd1
  = (Ok (error_response 409 "Shortcode already in use"), db_abcd1)
  ∧ @create_shorturl sample_runtime racing_env body_abcd1 empty_db
    = (Ok (error_response 409
             "Shortcode collision occurred (try a different custom shortcode)"),
       concurrent_writes (ce_racing racing_env) empty_db)
  ∧ query_shorturl (concurrent_writes (ce_racing racing_env) empty_db) (lit "abcd1")
    = Some row_abcd1.
Proof.
  assert (Hvalid : @passes_validation sample_runtime items_abcd1 1)
    by (repeat split; vm_compute; reflexivity).
  split.
  - destruct (@registered_custom_shortcode_conflict sample_runtime (sample_env t0)
                items_abcd1 db_abcd1 1 (lit "abcd1") row_abcd1 eq_refl eq_refl)
      as [Hpre _].
    destruct Hpre as (_ & _ & Hconflict); [vm_compute; reflexivity|].
    apply Hconflict; [exact Hvalid | vm_compute; reflexivity].
  - destruct (@registered_custom_shortcode_conflict sample_runtime racing_env
                items_abcd1 empty_db 1 (lit "abcd1") row_abcd1 eq_refl eq_refl)
      as [_ Hlate].
    apply Hlate.
    + reflexivity.
    + vm_compute. reflexivity.
    + exact Hvalid.
    + vm_compute. reflexivity.
    + eexists. vm_compute. reflexivity.
    + reflexivity.
Defined.

Lemma custom_shortcode_stripped_format_witness :
  @create_shorturl sample_runtime (sample_env t0) body_dash empty_db
  = (Ok (error_response 400
           "Provided 'shortcode' invalid. Must be alphanumeric and length 4-64."),
     empty_db)
  ∧ (@create_shorturl sample_runtime (sample_env t0) body_abcd1 empty_db).1
    = Ok {| status := 201;
            payload := CreatedBody (lit "http://localhost:5000/abcd1")
                                   (lit "2024-01-01T00:01:00Z") |}.
Proof.
  split.
  - destruct (@custom_shortcode_stripped_format sample_runtime (sample_env t0)
                items_dash empty_db 30 (lit "ab-1") eq_refl eq_refl)
      as (_ & Hreject & _).
    + repeat split; vm_compute; reflexivity.
    + apply Hreject. vm_compute. reflexivity.
  - destruct (@custom_shortcode_stripped_format sample_runtime (sample_env t0)
                items_abcd1 empty_db 1 (lit "abcd1") eq_refl eq_refl)
      as (_ & _ & _ & Haccept).
    + repeat split; vm_compute; reflexivity.
    + unfold body_abcd1.
      rewrite (Haccept eq_refl eq_refl eq_refl eq_refl
                 {| wall := t0 + US_PER_MINUTE; tzinfo := Some timezone_utc |}
                 eq_refl).
      vm_compute. reflexivity.
Defined.

(** C7 as stated fails: a candidate with surrounding whitespace does not
    match the pattern, and the request is not answered 400; the link is
    created under the candidate without the whitespace. *)
Lemma padded_shortcode_is_accepted :
  SHORTCODE_RE_match (lit " abcd1 ") = false
  ∧ (@create_shorturl sample_runtime (sample_env t0) body_padded empty_db).1
    = Ok {| status := 201;
            payload := CreatedBody (lit "http://localhost:5000/abcd1")
                                   (lit "2024-01-01T00:30:00Z") |}
  ∧ is_Some (query_shorturl
               (@create_shorturl sample_runtime (sample_env t0) body_padded
                  empty_db).2
               (lit "abcd1"))
  ∧ query_shorturl
      (@create_shorturl sample_runtime (sample_env t0) body_padded empty_db).2
      (lit " abcd1 ") = None.
Proof.
  split; [vm_compute; reflexivity|].
  split; [vm_compute; reflexivity|].
  split; [|vm_compute; reflexivity].
  vm_compute. eexists. reflexivity.
Qed.

Lemma falsy_shortcode_allocates_witness :
  (@create_shorturl sample_runtime (sample_env t0) body_empty_code empty_db).1
  = Ok {| status := 201;
          payload := CreatedBody (lit "http://localhost:5000/abcdef")
                                 (lit "2024-01-01T00:30:00Z") |}.
Proof.
  destruct (@falsy_shortcode_allocates sample_runtime (sample_env t0)
              items_empty_code empty_db 30 eq_refl eq_refl)
    as (_ & _ & Hcreated).
  - repeat split; vm_compute; reflexivity.
  - unfold body_empty_code.
    rewrite (Hcreated (lit "abcdef")
               {| draws := λ i, i; cursor := 6 |}
               {| wall := t0 + 30 * US_PER_MINUTE; tzinfo := Some timezone_utc |}
               eq_refl eq_refl eq_refl eq_refl).
    vm_compute. reflexivity.
Defined.

(** ** Validity *)

(** C6, at a fractional validity: [{"url": ..., "validity": 1.5}] is answered
    201 and a link of one minute is stored; [int] has cut 1.5 down to 1. *)
Theorem fractional_validity_is_accepted :
  @parse_validity sample_runtime (JFloat (S754_finite false 3 (-1))) = Some 1
  ∧ (@create_shorturl sample_runtime (sample_env t0) body_fractional empty_db).1
    = Ok {| status := 201;
            payload := CreatedBody (lit "http://localhost:5000/abcdef")
                                   (lit "2024-01-01T00:01:00Z") |}
  ∧ ShortURL.expiry
      <$> query_shorturl
            (@create_shorturl sample_runtime (sample_env t0) body_fractional
               empty_db).2
            (lit "abcdef")
    = Some (t0 + 1 * US_PER_MINUTE).
Proof.
  split; [reflexivity|]. split; vm_compute; reflexivity.
Qed.

Section validity_props.
Context `{PyRuntime}.

(** Whole numbers that are not positive are refused and nothing is stored. *)
Lemma nonpositive_validity_refused (e : create_env) (items : list (str * json))
    (db : DB) (n : Z) :
  truthy (dict_get items (lit "url") JNull) = true →
  validate_url (dict_get items (lit "url") JNull) = true →
  dict_get items (lit "validity") (JInt 30) = JInt n →
  n ≤ 0 →
  create_shorturl e (JObj items) db
  = (Ok (error_response 400
           "'validity' must be a positive integer representing minutes"), db).
Proof.
  intros Hurl Hvalid Hget Hn. unfold create_shorturl.
  rewrite (dict_get_truthy_nonempty _ _ Hurl), Hurl, Hvalid, Hget.
  unfold parse_validity. cbn.
  destruct (Z.leb_spec n 0); [reflexivity | lia].
Qed.

End validity_props.

(** ** Redirection *)

(** The handler as it is meant: against an expiry that carries UTC, a
    request after the expiry is answered 410 and records nothing, any other
    is answered 302 to the stored URL whether or not the click is
    committed. *)
Lemma redirect_found_aware (e : redirect_env) (req : request) (code url : str)
    (x : Z) (db : DB) :
  let r := redirect_found e req code url
             {| wall := x; tzinfo := Some timezone_utc |} db in
  if x <? re_clock e
  then r = (Ok (error_response 410 "Shortlink expired"), db)
  else r.1 = Ok {| status := 302; payload := RedirectBody url |}
       ∧ shorturls r.2 = shorturls db
       ∧ (re_fault e = true → r.2 = db)
       ∧ (re_fault e = false → ∃ click, clicks r.2 = clicks db ++ [click]
                                        ∧ Click.shortcode click = code
                                        ∧ Click.timestamp click = re_clock e).
Proof.
  cbn zeta. unfold redirect_found, datetime_gt, commit_click. cbn.
  rewrite !Z.sub_0_r.
  destruct (x <? re_clock e); [reflexivity|].
  destruct (re_fault e); cbn.
  - repeat split; try reflexivity. discriminate.
  - repeat split; try reflexivity; [discriminate|].
    intros _. eexists. repeat split.
Qed.

(** Against the naive value a [DateTime] column gives back, the comparison
    of line 244 raises, for every clock and every row. *)
Lemma redirect_found_naive (e : redirect_env) (req : request) (code url : str)
    (column : Z) (db : DB) :
  redirect_found e req code url (load_DateTime column) db = (Raise TypeError, db).
Proof. reflexivity. Qed.

(** C1, on the code.  A redirect request for a registered shortcode leaves
    the handler with [TypeError] at the comparison of line 244, before the
    click is recorded: the client gets 500 and not the 302 to the stored
    URL, with or without a store fault. *)
Theorem redirect_of_stored_link_raises (e : redirect_env) (req : request)
    (code : str) (db : DB) (s : ShortURL.t) :
  query_shorturl db code = Some s →
  redirect_to_original e req code db = (Raise TypeError, db)
  ∧ serve (redirect_to_original e req code db).1
    = error_response 500 "Internal server error".
Proof.
  intros Hq. unfold redirect_to_original. rewrite Hq, redirect_found_naive.
  split; reflexivity.
Qed.

Lemma redirect_of_stored_link_raises_witness :
  query_shorturl db_abcd1 (lit "abcd1") = Some row_abcd1
  ∧ t0 + US_PER_SECOND < ShortURL.expiry row_abcd1
  ∧ ∀ fault,
      serve (redirect_to_original
               {| re_clock := t0 + US_PER_SECOND; re_fault := fault |}
               sample_request (lit "abcd1") db_abcd1).1
      = error_response 500 "Internal server error".
Proof.
  assert (Hq : query_shorturl db_abcd1 (lit "abcd1") = Some row_abcd1)
    by (vm_compute; reflexivity).
  split; [exact Hq|]. split; [vm_compute; reflexivity|].
  intros fault.
  exact (proj2 (redirect_of_stored_link_raises _ sample_request _ _ _ Hq)).
Defined.

(** C2, on the code.  The link [abcd1] expires one minute after [t0]; a
    request 61 seconds after [t0] is answered 500 and not 410.  No click is
    recorded. *)
Theorem redirect_of_expired_link_is_500 :
  let e := {| re_clock := t0 + 61 * US_PER_SECOND; re_fault := false |} in
  let r := redirect_to_original e sample_request (lit "abcd1") db_abcd1 in
  query_shorturl db_abcd1 (lit "abcd1") = Some row_abcd1
  ∧ ShortURL.expiry row_abcd1 < re_clock e
  ∧ r.1 = Raise TypeError
  ∧ status (serve r.1) = 500
  ∧ r.2 = db_abcd1.
Proof.
  cbn zeta. split; [vm_compute; reflexivity|].
  split; [vm_compute; reflexivity|].
  assert (Hr : redirect_to_original
                 {| re_clock := t0 + 61 * US_PER_SECOND; re_fault := false |}
                 sample_request (lit "abcd1") db_abcd1
               = (Raise TypeError, db_abcd1)).
  { unfold redirect_to_original.
    replace (query_shorturl db_abcd1 (lit "abcd1")) with (Some row_abcd1)
      by (vm_compute; reflexivity).
    apply redirect_found_naive. }
  rewrite Hr. repeat split.
Qed.

(** * Further properties of the handlers *)

(** ** Outcomes of a creation request *)

Lemma startswith_prefix (p s : str) :
  startswith p s = true ↔ ∃ rest, s = p ++ rest.
Proof.
  revert s. induction p as [|a p IH]; intros s.
  - split; [intros _; exists s; reflexivity | reflexivity].
  - destruct s as [|b s]; cbn [startswith].
    + split; [discriminate | intros [rest [=]]].
    + rewrite andb_true_iff, N.eqb_eq, IH. split.
      * intros [-> [rest ->]]. exists rest. reflexivity.
      * intros [rest [= -> ->]]. split; [reflexivity | exists rest; reflexivity].
Qed.

(** X2. [validate_url] asks for a string that, once stripped, begins with one of
    the two schemes, and for nothing after the scheme. *)
Theorem validate_url_iff (v : json) :
  validate_url v = true
  ↔ ∃ u rest, v = JStr u
              ∧ (strip u = lit "http://" ++ rest ∨ strip u = lit "https://" ++ rest).
Proof.
  split.
  - destruct v as [| | | |u| |]; try discriminate. cbn [validate_url].
    intros Hs. apply orb_prop in Hs as [Hs | Hs];
      apply startswith_prefix in Hs as [rest Hrest]; exists u, rest; auto.
  - intros (u & rest & -> & [Hs | Hs]); cbn [validate_url]; rewrite Hs;
      apply orb_true_iff; [left | right]; apply startswith_prefix; eauto.
Qed.

Section create_outcomes.
Context `{PyRuntime}.

(** The four ways the insertion of lines 183-202 ends. *)
Lemma insert_link_cases (e : create_env) (db : DB) (url code : str) (v : Z) :
  (∃ ex, expiry_of e v = Raise ex
         ∧ insert_link e db url v code = (Raise ex, db))
  ∨ (∃ exp, expiry_of e v = Ok exp ∧ ce_fault e = true
            ∧ insert_link e db url v code
              = (Ok (error_response 500 "Internal server error creating shortcode"),
                 concurrent_writes (ce_racing e) db))
  ∨ (∃ exp s, expiry_of e v = Ok exp ∧ ce_fault e = false
              ∧ (shorturls db ∪ ce_racing e) !! code = Some s
              ∧ insert_link e db url v code
                = (Ok (error_response 409
                         "Shortcode collision occurred (try a different custom shortcode)"),
                   concurrent_writes (ce_racing e) db))
  ∨ (∃ exp, expiry_of e v = Ok exp ∧ ce_fault e = false
            ∧ (shorturls db ∪ ce_racing e) !! code = None
            ∧ insert_link e db url v code
              = (Ok {| status := 201;
                       payload := CreatedBody (short_link code) (iso_z (wall exp)) |},
                 {| shorturls :=
                      <[code := new_row code url (created_at_of e) exp]>
                        (shorturls db ∪ ce_racing e);
                    clicks := clicks db |})).
Proof.
  destruct (expiry_of e v) as [exp|ex] eqn:Hexp.
  - destruct (ce_fault e) eqn:Hfault.
    + right. left. exists exp. repeat split.
      unfold insert_link, commit_shorturl. rewrite Hexp, Hfault. reflexivity.
    + destruct ((shorturls db ∪ ce_racing e) !! code) as [s|] eqn:Hreg.
      * right. right. left. exists exp, s. repeat split.
        exact (insert_link_conflict _ _ _ _ _ _ _ Hexp Hreg Hfault).
      * right. right. right. exists exp. repeat split.
        exact (insert_link_created _ _ _ _ _ _ Hexp Hreg Hfault).
  - left. exists ex. split; [reflexivity|].
    unfold insert_link. rewrite Hexp. reflexivity.
Qed.

(** A creation request ends before the insertion, the store as it was and
    the answer not 201, or it is the insertion of its resolved shortcode. *)
Lemma create_cases (e : create_env) (data : json) (db : DB) :
  ((create_shorturl e data db).2 = db
   ∧ status (serve (create_shorturl e data db).1) ≠ 201)
  ∨ ∃ items v code,
      data = JObj items
      ∧ passes_validation items v
      ∧ resolve_shortcode (dict_get items (lit "shortcode") JNull) db (ce_rng e)
        = inr code
      ∧ create_shorturl e data db
        = insert_link e db (text_of (dict_get items (lit "url") JNull)) v code.
Proof.
  unfold create_shorturl.
  destruct (truthy data) eqn:Hdata; cbn [negb];
    [|left; split; [reflexivity | discriminate]].
  destruct data as [| | | | | |items];
    try (left; split; [reflexivity | discriminate]).
  destruct (truthy (dict_get items (lit "url") JNull)) eqn:Hurl; cbn [negb orb];
    [|left; split; [reflexivity | discriminate]].
  destruct (validate_url _) eqn:Hvalid; cbn [negb];
    [|left; split; [reflexivity | discriminate]].
  destruct (parse_validity _) as [v|] eqn:Hparse;
    [|left; split; [reflexivity | discriminate]].
  destruct (resolve_shortcode _ db (ce_rng e)) as [resp|code] eqn:Hres.
  - left. split; [reflexivity|]. revert Hres. unfold resolve_shortcode.
    repeat case_match; intros; simplify_eq; discriminate.
  - right. exists items, v, code. unfold passes_validation. auto.
Qed.

(** X1. A body that is not a JSON object: a falsy one (null, false, 0, an empty
    string, list or object) is answered 400; a truthy one has no [get], the
    handler raises [AttributeError] and the client gets 500.  Nothing is
    stored. *)
Theorem body_not_an_object (e : create_env) (data : json) (db : DB) :
  (truthy data = false →
   create_shorturl e data db = (Ok (error_response 400 "Missing JSON body"), db))
  ∧ (truthy data = true → (∀ items, data ≠ JObj items) →
     create_shorturl e data db = (Raise AttributeError, db)
     ∧ serve (create_shorturl e data db).1
       = error_response 500 "Internal server error").
Proof.
  unfold create_shorturl. split.
  - intros ->. reflexivity.
  - intros -> Hobj. cbn [negb].
    destruct data as [| | | | | |items]; try (split; reflexivity).
    destruct (Hobj items eq_refl).
Qed.

(** X3. The stored destination is the [url] of the body as it was sent, a
    non-empty string, with the whitespace that [validate_url] looks past. *)
Theorem created_link_keeps_url (e : create_env) (data : json) (db db' : DB)
    (r : res response) :
  create_shorturl e data db = (r, db') →
  status (serve r) = 201 →
  ∃ items u code row,
    data = JObj items
    ∧ dict_get items (lit "url") JNull = JStr u
    ∧ u ≠ []
    ∧ validate_url (JStr u) = true
    ∧ shorturls db' !! code = Some row
    ∧ ShortURL.original_url row = u
    ∧ ∃ expiry, serve r = {| status := 201;
                             payload := CreatedBody (short_link code) expiry |}.
Proof.
  intros Hrun Hst.
  destruct (create_201_inv _ _ _ _ _ Hrun Hst)
    as (items & v & code & -> & (Hurl & Hvalid & Hparse) & Hres & Hins).
  destruct (insert_link_201_inv _ _ _ _ _ _ _ Hins Hst)
    as (exp & Hexp & Hfree & Hfault).
  rewrite (insert_link_created _ _ _ _ _ _ Hexp Hfree Hfault) in Hins.
  injection Hins as <- <-.
  destruct (dict_get items (lit "url") JNull) as [| | | |u| |] eqn:Hget;
    try discriminate.
  exists items, u, code, (new_row code u (created_at_of e) exp).
  split; [reflexivity|]. split; [exact Hget|].
  split; [intros ->; discriminate Hurl|]. split; [exact Hvalid|].
  split; [apply lookup_insert_eq|]. split; [reflexivity|].
  eexists. reflexivity.
Qed.

(** X4. A [validity] that [int] refuses or turns into a number that is not
    positive: null (the default 30 is for an absent field only), false, a
    list, an object, NaN, an infinity, a zero, a whole number below 1.  The
    request is answered 400 and nothing is stored. *)
Theorem unusable_validity_refused (e : create_env) (items : list (str * json))
    (db : DB) :
  truthy (dict_get items (lit "url") JNull) = true →
  validate_url (dict_get items (lit "url") JNull) = true →
  (let x := dict_get items (lit "validity") (JInt 30) in
   x = JNull ∨ x = JBool false ∨ (∃ l, x = JArr l) ∨ (∃ o, x = JObj o)
   ∨ x = JFloat S754_nan ∨ (∃ s, x = JFloat (S754_infinity s))
   ∨ (∃ s, x = JFloat (S754_zero s)) ∨ (∃ n, x = JInt n ∧ n ≤ 0)) →
  create_shorturl e (JObj items) db
  = (Ok (error_response 400
           "'validity' must be a positive integer representing minutes"), db).
Proof.
  intros Hurl Hvalid Hx. unfold create_shorturl.
  rewrite (dict_get_truthy_nonempty _ _ Hurl), Hurl, Hvalid. cbn [negb orb].
  assert (Hparse : parse_validity (dict_get items (lit "validity") (JInt 30))
                   = None).
  { cbn zeta in Hx. unfold parse_validity.
    destruct Hx as [-> | [-> | [[l ->] | [[o ->] | [-> | [[s ->] | [[s ->] | [n [-> Hn]]]]]]]]];
      try reflexivity.
    cbn. destruct (Z.leb_spec n 0); [reflexivity | lia]. }
  rewrite Hparse. reflexivity.
Qed.

(** X5. A validity that passes the check but puts the expiry beyond year 9999
    is not caught: line 184 raises [OverflowError], the client gets 500 and
    nothing is stored. *)
Theorem expiry_out_of_range_raises (e : create_env) (items : list (str * json))
    (db : DB) (v : Z) (code : str) :
  passes_validation items v →
  resolve_shortcode (dict_get items (lit "shortcode") JNull) db (ce_rng e)
  = inr code →
  in_range (ce_clock e + v * US_PER_MINUTE) = false →
  create_shorturl e (JObj items) db = (Raise OverflowError, db)
  ∧ serve (create_shorturl e (JObj items) db).1
    = error_response 500 "Internal server error".
Proof.
  intros Hvalid Hres Hrange.
  rewrite (create_validated _ _ _ _ Hvalid), Hres.
  assert (Hexp : expiry_of e v = Raise OverflowError).
  { unfold expiry_of, timedelta_minutes, datetime_add.
    destruct (_ <=? 999999999); [|reflexivity].
    cbn. rewrite Hrange. reflexivity. }
  unfold insert_link. rewrite Hexp. split; reflexivity.
Qed.

(** X6. No creation request, whatever its body, changes or removes a registered
    row, and none touches the clicks. *)
Theorem create_keeps_registered_rows (e : create_env) (data : json) (db : DB)
    (k : str) (s : ShortURL.t) :
  query_shorturl db k = Some s →
  query_shorturl (create_shorturl e data db).2 k = Some s
  ∧ clicks (create_shorturl e data db).2 = clicks db.
Proof.
  intros Hk. unfold query_shorturl in *.
  assert (Hunion : (shorturls db ∪ ce_racing e) !! k = Some s)
    by (apply lookup_union_Some_l; exact Hk).
  destruct (create_cases e data db)
    as [[-> _] | (items & v & code & -> & _ & _ & ->)]; [auto|].
  destruct (insert_link_cases e db (text_of (dict_get items (lit "url") JNull))
              code v)
    as [(ex & _ & ->) | [(exp & _ & _ & ->) | [(exp & s' & _ & _ & _ & ->)
       | (exp & _ & _ & Hfree & ->)]]]; cbn; auto.
  split; [|reflexivity].
  rewrite lookup_insert_ne; [exact Hunion|]. intros ->. congruence.
Qed.

(** X7. A creation answered 201 adds exactly one row, under a shortcode that
    neither the store nor a concurrent writer had registered; the response
    link is the host followed by that shortcode. *)
Theorem created_link_is_fresh (e : create_env) (data : json) (db db' : DB)
    (r : res response) :
  create_shorturl e data db = (r, db') →
  status (serve r) = 201 →
  ∃ code row expiry,
    query_shorturl db code = None
    ∧ ce_racing e !! code = None
    ∧ shorturls db' = <[code := row]> (shorturls db ∪ ce_racing e)
    ∧ size (shorturls db') = S (size (shorturls db ∪ ce_racing e))
    ∧ ShortURL.shortcode row = code
    ∧ clicks db' = clicks db
    ∧ r = Ok {| status := 201;
                payload := CreatedBody (lit "http://localhost:5000/" ++ code)
                                       expiry |}.
Proof.
  intros Hrun Hst.
  destruct (create_201_inv _ _ _ _ _ Hrun Hst)
    as (items & v & code & -> & _ & _ & Hins).
  destruct (insert_link_201_inv _ _ _ _ _ _ _ Hins Hst)
    as (exp & Hexp & Hfree & Hfault).
  rewrite (insert_link_created _ _ _ _ _ _ Hexp Hfree Hfault) in Hins.
  injection Hins as <- <-.
  apply lookup_union_None in Hfree as Hboth. destruct Hboth as [Hdb Hrace].
  eexists code, _, _. cbn [shorturls clicks].
  split; [exact Hdb|]. split; [exact Hrace|]. split; [reflexivity|].
  split; [apply map_size_insert_None; exact Hfree|].
  split; [reflexivity|]. split; reflexivity.
Qed.

(** X8. When the commit of a creation fails for another reason than the unique
    index, the request is answered 500 and its row is not stored. *)
Theorem create_store_fault (e : create_env) (items : list (str * json))
    (db : DB) (v : Z) (code : str) (exp : datetime) :
  passes_validation items v →
  resolve_shortcode (dict_get items (lit "shortcode") JNull) db (ce_rng e)
  = inr code →
  expiry_of e v = Ok exp →
  ce_fault e = true →
  create_shorturl e (JObj items) db
  = (Ok (error_response 500 "Internal server error creating shortcode"),
     concurrent_writes (ce_racing e) db)
  ∧ query_shorturl (concurrent_writes (ce_racing e) db) code = ce_racing e !! code.
Proof.
  intros Hvalid Hres Hexp Hfault.
  rewrite (create_validated _ _ _ _ Hvalid), Hres.
  unfold insert_link, commit_shorturl. rewrite Hexp, Hfault.
  split; [reflexivity|].
  unfold query_shorturl, concurrent_writes. cbn [shorturls].
  apply lookup_union_r.
  revert Hres. unfold resolve_shortcode, query_shorturl.
  repeat case_match; intros; simplify_eq; try assumption.
  destruct (generate_unique db (ce_rng e)) as [c g'] eqn:Hgen.
  cbn [fst] in *. subst c.
  rewrite generate_unique_spec in Hgen. unfold allocate_spec in Hgen.
  destruct (first_unoccupied draw_plan db (ce_rng e)) as [[c0|] g0] eqn:Hplan.
  - injection Hgen as -> ->.
    exact (proj1 (first_unoccupied_Some _ _ _ _ _ Hplan)).
  - exact (proj1 (first_unoccupied_Some _ _ _ _ _ Hgen)).
Qed.

End create_outcomes.

Lemma body_not_an_object_witness :
  @create_shorturl sample_runtime (sample_env t0) JNull db_abcd1
  = (Ok (error_response 400 "Missing JSON body"), db_abcd1)
  ∧ @create_shorturl sample_runtime (sample_env t0) (JArr [JInt 1]) db_abcd1
    = (Raise AttributeError, db_abcd1).
Proof.
  split.
  - exact (proj1 (@body_not_an_object sample_runtime (sample_env t0) JNull db_abcd1)
             eq_refl).
  - apply (proj2 (@body_not_an_object sample_runtime (sample_env t0)
                    (JArr [JInt 1]) db_abcd1) eq_refl).
    intros items. discriminate.
Defined.

Lemma created_link_keeps_url_witness :
  let run := @create_shorturl sample_runtime (sample_env t0) body_abcd1 empty_db in
  ∃ items u code row,
    body_abcd1 = JObj items
    ∧ dict_get items (lit "url") JNull = JStr u
    ∧ u ≠ []
    ∧ validate_url (JStr u) = true
    ∧ shorturls run.2 !! code = Some row
    ∧ ShortURL.original_url row = u
    ∧ ∃ expiry, serve run.1 = {| status := 201;
                                 payload := CreatedBody (short_link code) expiry |}.
Proof.
  intros run.
  apply (@created_link_keeps_url sample_runtime (sample_env t0) body_abcd1 empty_db
           run.2 run.1).
  - apply surjective_pairing.
  - vm_compute. reflexivity.
Defined.

Lemma unusable_validity_refused_witness :
  @create_shorturl sample_runtime (sample_env t0) (JObj items_null_validity) empty_db
  = (Ok (error_response 400
           "'validity' must be a positive integer representing minutes"),
     empty_db).
Proof.
  apply (@unusable_validity_refused sample_runtime (sample_env t0)
           items_null_validity empty_db).
  - reflexivity.
  - vm_compute. reflexivity.
  - left. reflexivity.
Defined.

Lemma expiry_out_of_range_raises_witness :
  @create_shorturl sample_runtime (sample_env t0) (JObj items_long_validity) empty_db
  = (Raise OverflowError, empty_db).
Proof.
  apply (@expiry_out_of_range_raises sample_runtime (sample_env t0)
           items_long_validity empty_db 10000000000 (lit "abcdef")).
  - repeat split; vm_compute; reflexivity.
  - vm_compute. reflexivity.
  - vm_compute. reflexivity.
Defined.

Lemma create_keeps_registered_rows_witness :
  query_shorturl
    (@create_shorturl sample_runtime (sample_env t0) body_url_only db_abcd1).2
    (lit "abcd1") = Some row_abcd1.
Proof.
  apply (@create_keeps_registered_rows sample_runtime (sample_env t0) body_url_only
           db_abcd1 (lit "abcd1") row_abcd1).
  vm_compute. reflexivity.
Defined.

Lemma created_link_is_fresh_witness :
  let run := @create_shorturl sample_runtime (sample_env t0) body_url_only db_abcd1 in
  ∃ code row expiry,
    query_shorturl db_abcd1 code = None
    ∧ ce_racing (sample_env t0) !! code = None
    ∧ shorturls run.2
      = <[code := row]> (shorturls db_abcd1 ∪ ce_racing (sample_env t0))
    ∧ size (shorturls run.2)
      = S (size (shorturls db_abcd1 ∪ ce_racing (sample_env t0)))
    ∧ ShortURL.shortcode row = code
    ∧ clicks run.2 = clicks db_abcd1
    ∧ run.1 = Ok {| status := 201;
                    payload := CreatedBody (lit "http://localhost:5000/" ++ code)
                                           expiry |}.
Proof.
  intros run.
  apply (@created_link_is_fresh sample_runtime (sample_env t0) body_url_only db_abcd1
           run.2 run.1).
  - apply surjective_pairing.
  - vm_compute. reflexivity.
Defined.

Lemma create_store_fault_witness :
  @create_shorturl sample_runtime faulty_env body_abcd1 empty_db
  = (Ok (error_response 500 "Internal server error creating shortcode"),
     concurrent_writes (ce_racing faulty_env) empty_db)
  ∧ query_shorturl (concurrent_writes (ce_racing faulty_env) empty_db) (lit "abcd1")
    = ce_racing faulty_env !! lit "abcd1".
Proof.
  apply (@create_store_fault sample_runtime faulty_env items_abcd1 empty_db 1
           (lit "abcd1")
           {| wall := t0 + US_PER_MINUTE; tzinfo := Some timezone_utc |}).
  - repeat split; vm_compute; reflexivity.
  - vm_compute. reflexivity.
  - vm_compute. reflexivity.
  - reflexivity.
Defined.

(** ** The shortcode format *)

(** Characters of the class, 4 to 64 of them, match the pattern. *)
Lemma SHORTCODE_RE_match_alnum (c : str) :
  (4 ≤ length c ≤ 64)%nat → Forall (λ ch, is_alnum ch = true) c →
  SHORTCODE_RE_match c = true.
Proof.
  intros Hlen Hal. unfold SHORTCODE_RE_match. apply existsb_exists.
  exists (length c). split; [apply in_seq; lia|].
  rewrite firstn_all, drop_all, Nat.eqb_refl. cbn.
  rewrite andb_true_r. apply forallb_forall. intros ch Hin.
  apply list_elem_of_In in Hin. exact (proj1 (Forall_forall _ _) Hal _ Hin).
Qed.

Lemma ALPHABET_alnum (ch : N) : ch ∈ ALPHABET → is_alnum ch = true.
Proof.
  intros Hin. apply list_elem_of_In in Hin.
  assert (Hall : forallb is_alnum ALPHABET = true) by reflexivity.
  exact (proj1 (forallb_forall _ _) Hall _ Hin).
Qed.

(** X9. The pattern on any string: 4 to 64 characters of the class, then the
    end of the string or one newline that ends it. *)
Theorem SHORTCODE_RE_match_iff (s : str) :
  SHORTCODE_RE_match s = true
  ↔ ∃ c, (s = c ∨ s = c ++ [10%N])
         ∧ (4 ≤ length c ≤ 64)%nat
         ∧ Forall (λ ch, is_alnum ch = true) c.
Proof.
  unfold SHORTCODE_RE_match. rewrite existsb_exists. split.
  - intros (k & Hk & Hm). apply in_seq in Hk.
    apply andb_prop in Hm as [Hm Hend]. apply andb_prop in Hm as [Hlen Hal].
    apply Nat.eqb_eq in Hlen. exists (take k s).
    split; [|split; [lia|]].
    + unfold at_end in Hend.
      apply orb_prop in Hend as [Hend | Hend]; apply bool_decide_eq_true in Hend.
      * left. rewrite <- (take_drop k s) at 1. rewrite Hend, app_nil_r. reflexivity.
      * right. rewrite <- Hend. symmetry. apply take_drop.
    + apply Forall_forall. intros ch Hin. apply list_elem_of_In in Hin.
      exact (proj1 (forallb_forall _ _) Hal _ Hin).
  - intros (c & Hs & Hlen & Hal). exists (length c).
    split; [apply in_seq; lia|].
    assert (Hforall : forallb is_alnum c = true).
    { apply forallb_forall. intros ch Hin. apply list_elem_of_In in Hin.
      exact (proj1 (Forall_forall _ _) Hal _ Hin). }
    destruct Hs as [-> | ->].
    + rewrite firstn_all, drop_all, Nat.eqb_refl, Hforall. reflexivity.
    + rewrite take_app_length, drop_app_length, Nat.eqb_refl, Hforall. reflexivity.
Qed.

(** X10. Every shortcode the generator makes at a length from 4 to 64 has the
    format asked of a custom one. *)
Theorem generated_shortcode_matches_format (len : nat) (g : rng) :
  (4 ≤ len ≤ 64)%nat →
  SHORTCODE_RE_match (generate_shortcode len g).1 = true
  ∧ length (generate_shortcode len g).1 = len
  ∧ cursor (generate_shortcode len g).2 = (cursor g + len)%nat.
Proof.
  intros Hlen. split; [|split; [apply generate_shortcode_length | reflexivity]].
  apply SHORTCODE_RE_match_alnum.
  - rewrite generate_shortcode_length. exact Hlen.
  - eapply Forall_impl; [apply generate_shortcode_alphabet|].
    intros ch. apply ALPHABET_alnum.
Qed.

Lemma generated_shortcode_matches_format_witness :
  SHORTCODE_RE_match (generate_shortcode 6 sample_rng).1 = true
  ∧ length (generate_shortcode 6 sample_rng).1 = 6%nat
  ∧ cursor (generate_shortcode 6 sample_rng).2 = (cursor sample_rng + 6)%nat.
Proof. apply (generated_shortcode_matches_format 6 sample_rng). lia. Defined.

(** ** What the store holds *)

Lemma map_Forall_union_both (P : str → ShortURL.t → Prop)
    (m1 m2 : gmap str ShortURL.t) :
  map_Forall P m1 → map_Forall P m2 → map_Forall P (m1 ∪ m2).
Proof.
  intros H1 H2 k s Hk.
  apply lookup_union_Some_raw in Hk as [Hk | [_ Hk]]; [exact (H1 _ _ Hk) | exact (H2 _ _ Hk)].
Qed.

Section store_props.
Context `{PyRuntime}.

Lemma generate_unique_Some (db : DB) (g g' : rng) (c : str) :
  generate_unique db g = (Some c, g') →
  query_shorturl db c = None
  ∧ length c ∈ [6; 7; 8; 10]%nat
  ∧ Forall (λ ch, ch ∈ ALPHABET) c.
Proof.
  rewrite generate_unique_spec. unfold allocate_spec.
  destruct (first_unoccupied draw_plan db g) as [[c0|] g0] eqn:Hrun.
  - intros [= <- <-].
    apply first_unoccupied_Some in Hrun as (Hfree & Hlen & Hal).
    split; [assumption | split; [|assumption]].
    exact (proj1 (Forall_forall _ _) draw_plan_lengths _ Hlen).
  - intros Hfin.
    apply first_unoccupied_Some in Hfin as (Hfree & Hlen & Hal).
    split; [assumption | split; [|assumption]].
    apply list_elem_of_singleton in Hlen as ->.
    do 3 apply list_elem_of_further. apply list_elem_of_here.
Qed.

(** A resolved shortcode, custom or generated, has the format, fits the
    column and is not registered. *)
Lemma resolve_shortcode_inr (custom : json) (db : DB) (g : rng) (code : str) :
  resolve_shortcode custom db g = inr code →
  SHORTCODE_RE_match code = true
  ∧ (length code ≤ 64)%nat
  ∧ query_shorturl db code = None.
Proof.
  destruct (truthy custom) eqn:Hc.
  - rewrite (resolve_shortcode_custom _ _ _ Hc). cbn zeta.
    destruct (SHORTCODE_RE_match _) eqn:Hfmt; cbn [negb]; [|discriminate].
    destruct (query_shorturl _ _) eqn:Hq; [discriminate|].
    intros [= <-]. split; [exact Hfmt|]. split; [|exact Hq].
    apply SHORTCODE_RE_match_stripped in Hfmt. lia.
  - rewrite (resolve_shortcode_falsy _ _ _ Hc).
    destruct (generate_unique db g) as [[c|] g'] eqn:Hgen; cbn [fst];
      [|discriminate].
    intros [= <-].
    apply generate_unique_Some in Hgen as (Hfree & Hlen & Hal).
    assert (Hbounds : (4 ≤ length c ≤ 64)%nat).
    { apply list_elem_of_In in Hlen. cbn in Hlen.
      destruct Hlen as [<- | [<- | [<- | [<- | []]]]]; lia. }
    split; [|split; [lia | exact Hfree]].
    apply SHORTCODE_RE_match_alnum; [exact Hbounds|].
    eapply Forall_impl; [exact Hal|]. intros ch. apply ALPHABET_alnum.
Qed.

(** X11. Creation keeps the store well formed: when the rows of the store and
    those of concurrent writers sit under their own shortcode, have the
    format, fit the 64 characters of the column and expire after their
    creation, so do the rows after the request. *)
Theorem create_keeps_rows_ok (e : create_env) (data : json) (db : DB) :
  map_Forall row_ok (shorturls db) →
  map_Forall row_ok (ce_racing e) →
  map_Forall row_ok (shorturls (create_shorturl e data db).2).
Proof.
  intros Hdb Hrace.
  pose proof (map_Forall_union_both _ _ _ Hdb Hrace) as Hunion.
  destruct (create_cases e data db)
    as [[-> _] | (items & v & code & -> & (_ & _ & Hparse) & Hres & ->)];
    [exact Hdb|].
  destruct (insert_link_cases e db (text_of (dict_get items (lit "url") JNull))
              code v)
    as [(ex & _ & ->) | [(exp & _ & _ & ->) | [(exp & s' & _ & _ & _ & ->)
       | (exp & Hexp & _ & Hfree & ->)]]]; cbn [snd shorturls concurrent_writes];
    try assumption.
  apply map_Forall_insert_2; [|exact Hunion].
  apply resolve_shortcode_inr in Hres as (Hfmt & Hlen & _).
  apply parse_validity_Some in Hparse as [_ Hpos].
  apply expiry_of_Ok in Hexp as ->.
  repeat split; try assumption.
  cbn. unfold US_PER_MINUTE, US_PER_SECOND. lia.
Qed.

(** X12. When the first candidate of six characters is not registered, it is
    the shortcode, and no other draw is made. *)
Theorem first_free_draw_is_used (db : DB) (g : rng) :
  query_shorturl db (generate_shortcode 6 g).1 = None →
  generate_unique db g
  = (Some (generate_shortcode 6 g).1, (generate_shortcode 6 g).2)
  ∧ resolve_shortcode JNull db g = inr (generate_shortcode 6 g).1.
Proof.
  intros Hfree.
  assert (Hgen : generate_unique db g
                 = (Some (generate_shortcode 6 g).1, (generate_shortcode 6 g).2)).
  { unfold generate_unique. cbn [try_lengths attempts].
    pose proof (generate_shortcode_length 6 g) as Hlen.
    destruct (generate_shortcode 6 g) as [c g'] eqn:Hdraw. cbn [fst snd] in *.
    rewrite Hfree.
    rewrite truthy_code_Some by (intros ->; discriminate).
    rewrite truthy_code_Some by (intros ->; discriminate).
    reflexivity. }
  split; [exact Hgen|].
  rewrite resolve_shortcode_falsy by reflexivity. rewrite Hgen. reflexivity.
Qed.

(** X13. A second creation under a custom shortcode that a first one has taken
    is answered 409 and the store stays as the first one left it. *)
Theorem second_creation_conflicts (e1 e2 : create_env)
    (items1 items2 : list (str * json)) (db db1 : DB) (r1 : res response)
    (v2 : Z) :
  create_shorturl e1 (JObj items1) db = (r1, db1) →
  status (serve r1) = 201 →
  truthy (dict_get items1 (lit "shortcode") JNull) = true →
  truthy (dict_get items2 (lit "shortcode") JNull) = true →
  strip (py_str (dict_get items2 (lit "shortcode") JNull))
  = strip (py_str (dict_get items1 (lit "shortcode") JNull)) →
  passes_validation items2 v2 →
  create_shorturl e2 (JObj items2) db1
  = (Ok (error_response 409 "Shortcode already in use"), db1).
Proof.
  intros Hrun Hst Hc1 Hc2 Hsame Hvalid2.
  destruct (create_201_inv _ _ _ _ _ Hrun Hst)
    as (items & v & code & [= <-] & _ & Hres & Hins).
  destruct (insert_link_201_inv _ _ _ _ _ _ _ Hins Hst)
    as (exp & Hexp & Hfree & Hfault).
  rewrite (insert_link_created _ _ _ _ _ _ Hexp Hfree Hfault) in Hins.
  injection Hins as _ <-.
  rewrite (resolve_shortcode_custom _ _ _ Hc1) in Hres. cbn zeta in Hres.
  destruct (SHORTCODE_RE_match _) eqn:Hfmt; cbn [negb] in Hres; [|discriminate].
  destruct (query_shorturl db _); [discriminate|]. injection Hres as <-.
  rewrite (create_validated _ _ _ _ Hvalid2).
  rewrite (resolve_shortcode_custom _ _ _ Hc2). cbn zeta.
  rewrite Hsame, Hfmt. cbn [negb]. unfold query_shorturl. cbn [shorturls].
  rewrite lookup_insert_eq. reflexivity.
Qed.

End store_props.

Lemma create_keeps_rows_ok_witness :
  map_Forall row_ok
    (shorturls (@create_shorturl sample_runtime (sample_env t0) body_abcd1 empty_db).2).
Proof.
  apply (@create_keeps_rows_ok sample_runtime (sample_env t0) body_abcd1 empty_db).
  - cbn. apply map_Forall_empty.
  - cbn. apply map_Forall_empty.
Defined.

Lemma first_free_draw_is_used_witness :
  generate_unique empty_db sample_rng
  = (Some (generate_shortcode 6 sample_rng).1, (generate_shortcode 6 sample_rng).2)
  ∧ @resolve_shortcode sample_runtime JNull empty_db sample_rng
    = inr (generate_shortcode 6 sample_rng).1.
Proof.
  apply (@first_free_draw_is_used sample_runtime empty_db sample_rng).
  vm_compute. reflexivity.
Defined.

Lemma second_creation_conflicts_witness :
  @create_shorturl sample_runtime (sample_env (t0 + US_PER_SECOND)) body_abcd1
    db_abcd1
  = (Ok (error_response 409 "Shortcode already in use"), db_abcd1).
Proof.
  apply (@second_creation_conflicts sample_runtime (sample_env t0)
           (sample_env (t0 + US_PER_SECOND)) items_abcd1 items_abcd1 empty_db
           db_abcd1
           (@create_shorturl sample_runtime (sample_env t0) body_abcd1 empty_db).1
           1).
  - apply surjective_pairing.
  - vm_compute. reflexivity.
  - reflexivity.
  - reflexivity.
  - reflexivity.
  - repeat split; vm_compute; reflexivity.
Defined.

(** ** Timestamps of aware values *)

(** X14. [to_iso_z] writes the instant, not the wall clock: an aware value is
    moved to UTC before it is written, and a value whose instant falls
    outside years 1..9999 makes it raise [OverflowError]. *)
Theorem to_iso_z_aware (w off : Z) :
  (in_range (w - off) = true →
   to_iso_z {| wall := w; tzinfo := Some off |} = Ok (iso_z (w - off)))
  ∧ (off ≠ timezone_utc → in_range (w - off) = false →
     to_iso_z {| wall := w; tzinfo := Some off |} = Raise OverflowError).
Proof.
  unfold to_iso_z, astimezone_utc. cbn [tzinfo wall]. split.
  - intros Hr. destruct (Z.eqb_spec off timezone_utc) as [-> | _]; cbn.
    + unfold timezone_utc. rewrite Z.sub_0_r.
      f_equal. apply (iso_utc_text w).
    + rewrite Hr. cbn. f_equal. apply iso_utc_text.
  - intros Hoff Hr. destruct (Z.eqb_spec off timezone_utc) as [-> | _];
      [congruence|].
    rewrite Hr. reflexivity.
Qed.

Lemma to_iso_z_aware_witness :
  to_iso_z {| wall := t0; tzinfo := Some (- (5 * US_PER_HOUR)) |}
  = Ok (lit "2024-01-01T05:00:00Z")
  ∧ to_iso_z {| wall := 0; tzinfo := Some US_PER_HOUR |} = Raise OverflowError.
Proof.
  split.
  - rewrite (proj1 (to_iso_z_aware t0 (- (5 * US_PER_HOUR))));
      [vm_compute; reflexivity | vm_compute; reflexivity].
  - apply (proj2 (to_iso_z_aware 0 US_PER_HOUR)); [discriminate | reflexivity].
Defined.

(** ** Statistics and redirection over the store *)

Lemma stats_known (db : DB) (code : str) (s : ShortURL.t) :
  query_shorturl db code = Some s →
  get_shorturl_stats code db
  = Ok {| status := 200;
          payload :=
            StatsBody (length (recorded_clicks db code))
                      (ShortURL.original_url s)
                      (iso_z (ShortURL.created_at s))
                      (iso_z (ShortURL.expiry s))
                      (List.map render_click (query_clicks db code)) |}.
Proof.
  intros Hq. unfold get_shorturl_stats. rewrite Hq.
  rewrite mapM_click_json. unfold load_DateTime.
  rewrite !to_iso_z_naive. cbn.
  rewrite length_map, (Permutation_length (query_clicks_perm db code)).
  reflexivity.
Qed.

(** X15. The statistics of a shortcode do not see the clicks of another one. *)
Theorem stats_ignore_other_shortcodes (m : gmap str ShortURL.t)
    (before after : list Click.t) (c : Click.t) (code : str) :
  Click.shortcode c ≠ code →
  get_shorturl_stats code {| shorturls := m; clicks := before ++ c :: after |}
  = get_shorturl_stats code {| shorturls := m; clicks := before ++ after |}.
Proof.
  intros Hc. unfold get_shorturl_stats, query_shorturl, query_clicks.
  cbn [shorturls clicks].
  rewrite !List.filter_app. cbn [List.filter].
  rewrite bool_decide_eq_false_2 by exact Hc. reflexivity.
Qed.

Lemma stats_ignore_other_shortcodes_witness :
  get_shorturl_stats (lit "abcd1")
    {| shorturls := shorturls db_abcd1; clicks := [click_abcd1] ++ click_other :: [] |}
  = get_shorturl_stats (lit "abcd1")
      {| shorturls := shorturls db_abcd1; clicks := [click_abcd1] ++ [] |}.
Proof.
  apply (stats_ignore_other_shortcodes (shorturls db_abcd1) [click_abcd1] []
           click_other (lit "abcd1")).
  discriminate.
Defined.

(** X16. A redirect request leaves both tables as they were: an unknown
    shortcode is answered 404, a registered one 500. *)
Theorem redirect_leaves_store (e : redirect_env) (req : request) (code : str)
    (db : DB) :
  (redirect_to_original e req code db).2 = db
  ∧ serve (redirect_to_original e req code db).1
    = match query_shorturl db code with
      | None => error_response 404 "Shortcode not found"
      | Some _ => error_response 500 "Internal server error"
      end.
Proof.
  unfold redirect_to_original.
  destruct (query_shorturl db code) as [s|]; [|split; reflexivity].
  rewrite redirect_found_naive. split; reflexivity.
Qed.

Lemma redirect_store (e : redirect_env) (req : request) (code : str) (db : DB) :
  (redirect_to_original e req code db).2 = db.
Proof.
  unfold redirect_to_original.
  destruct (query_shorturl db code) as [s|]; [|reflexivity].
  rewrite redirect_found_naive. reflexivity.
Qed.

Section history.
Context `{PyRuntime}.

Lemma create_clicks (e : create_env) (data : json) (db : DB) :
  clicks (create_shorturl e data db).2 = clicks db.
Proof.
  destruct (create_cases e data db)
    as [[-> _] | (items & v & code & -> & _ & _ & ->)]; [reflexivity|].
  destruct (insert_link_cases e db (text_of (dict_get items (lit "url") JNull))
              code v)
    as [(ex & _ & ->) | [(exp & _ & _ & ->) | [(exp & s' & _ & _ & _ & ->)
       | (exp & _ & _ & _ & ->)]]]; reflexivity.
Qed.

Lemma handle_clicks (rq : http_request) (db : DB) :
  clicks (handle rq db).2 = clicks db.
Proof.
  destruct rq as [e data | code | e req code]; cbn [handle].
  - pose proof (create_clicks e data db) as Hc.
    destruct (create_shorturl e data db). exact Hc.
  - reflexivity.
  - pose proof (redirect_store e req code db) as Hr.
    destruct (redirect_to_original e req code db) as [r db']. cbn in Hr.
    rewrite Hr. reflexivity.
Qed.

Lemma run_clicks (rqs : list http_request) (db : DB) :
  clicks (run rqs db) = clicks db.
Proof.
  revert db. induction rqs as [|rq rqs IH]; intros db; [reflexivity|].
  cbn [run]. rewrite IH. apply handle_clicks.
Qed.

(** X17. Whatever requests are served, in whatever order, no click is recorded:
    on a store that started without clicks the statistics of every
    registered shortcode show zero clicks and an empty list. *)
Theorem history_records_no_click (rqs : list http_request) (db : DB) (code : str) :
  clicks (run rqs db) = clicks db
  ∧ get_shorturl_stats code (run rqs empty_db)
    = match query_shorturl (run rqs empty_db) code with
      | None => Ok (error_response 404 "Shortcode not found")
      | Some s =>
          Ok {| status := 200;
                payload := StatsBody 0 (ShortURL.original_url s)
                                     (iso_z (ShortURL.created_at s))
                                     (iso_z (ShortURL.expiry s)) [] |}
      end.
Proof.
  split; [apply run_clicks|].
  destruct (query_shorturl (run rqs empty_db) code) as [s|] eqn:Hq.
  - rewrite (stats_known _ _ _ Hq).
    unfold recorded_clicks, query_clicks. rewrite run_clicks. reflexivity.
  - unfold get_shorturl_stats. rewrite Hq. reflexivity.
Qed.

(** X18. After a creation answered 201 the statistics of the new shortcode show
    the URL of the request, the creation time, the expiry text of the
    creation response and the clicks the store held for that shortcode. *)
Theorem created_link_statistics (e : create_env) (data : json) (db db' : DB)
    (r : res response) :
  create_shorturl e data db = (r, db') →
  status (serve r) = 201 →
  ∃ items code u expiry_text,
    data = JObj items
    ∧ dict_get items (lit "url") JNull = JStr u
    ∧ r = Ok {| status := 201;
                payload := CreatedBody (short_link code) expiry_text |}
    ∧ get_shorturl_stats code db'
      = Ok {| status := 200;
              payload :=
                StatsBody (length (recorded_clicks db code)) u
                          (iso_z (ce_clock e)) expiry_text
                          (List.map render_click (query_clicks db code)) |}.
Proof.
  intros Hrun Hst.
  destruct (create_201_inv _ _ _ _ _ Hrun Hst)
    as (items & v & code & -> & (Hurl & Hvalid & _) & _ & Hins).
  destruct (insert_link_201_inv _ _ _ _ _ _ _ Hins Hst)
    as (exp & Hexp & Hfree & Hfault).
  rewrite (insert_link_created _ _ _ _ _ _ Hexp Hfree Hfault) in Hins.
  injection Hins as <- <-.
  destruct (dict_get items (lit "url") JNull) as [| | | |u| |] eqn:Hget;
    try discriminate.
  exists items, code, u, (iso_z (wall exp)).
  split; [reflexivity|]. split; [exact Hget|]. split; [reflexivity|].
  rewrite (stats_known _ code (new_row code u (created_at_of e) exp));
    [reflexivity|].
  unfold query_shorturl. cbn [shorturls]. apply lookup_insert_eq.
Qed.

End history.

Lemma created_link_statistics_witness :
  let run := @create_shorturl sample_runtime (sample_env t0) body_abcd1 empty_db in
  ∃ items code u expiry_text,
    body_abcd1 = JObj items
    ∧ dict_get items (lit "url") JNull = JStr u
    ∧ run.1 = Ok {| status := 201;
                    payload := CreatedBody (short_link code) expiry_text |}
    ∧ get_shorturl_stats code run.2
      = Ok {| status := 200;
              payload :=
                StatsBody (length (recorded_clicks empty_db code)) u
                          (iso_z (ce_clock (sample_env t0))) expiry_text
                          (List.map render_click (query_clicks empty_db code)) |}.
Proof.
  intros run.
  apply (@created_link_statistics sample_runtime (sample_env t0) body_abcd1
           empty_db run.2 run.1).
  - apply surjective_pairing.
  - vm_compute. reflexivity.
Defined.

(** X19. Lines 243-271 against an expiry that carries UTC (what the comparison
    of line 244 needs; the store hands back naive values).  Past the expiry
    the answer is 410 and nothing is recorded; up to and at the expiry it
    is 302 to the stored URL, with one click appended when the commit
    succeeds and the store untouched when it fails.  The click takes its
    referrer from [Referer], else [Referrer], its address from
    [X-Forwarded-For], else the peer, and its location is [unknown]. *)
Theorem redirect_on_aware_expiry (e : redirect_env) (req : request)
    (code url : str) (x : Z) (db : DB) :
  let s_expiry := {| wall := x; tzinfo := Some timezone_utc |} in
  (x < re_clock e →
   redirect_found e req code url s_expiry db
   = (Ok (error_response 410 "Shortlink expired"), db))
  ∧ (re_clock e ≤ x → re_fault e = true →
     redirect_found e req code url s_expiry db
     = (Ok {| status := 302; payload := RedirectBody url |}, db))
  ∧ (re_clock e ≤ x → re_fault e = false →
     redirect_found e req code url s_expiry db
     = (Ok {| status := 302; payload := RedirectBody url |},
        {| shorturls := shorturls db;
           clicks :=
             clicks db
             ++ [ {| Click.shortcode := code;
                     Click.timestamp := re_clock e;
                     Click.referrer := or_else (hdr_Referer req) (hdr_Referrer req);
                     Click.location := Some (lit "unknown");
                     Click.ip := header_or (hdr_X_Forwarded_For req) (remote_addr req);
                     Click.user_agent := hdr_User_Agent req |} ] |})).
Proof.
  cbn zeta. unfold redirect_found, datetime_gt, commit_click. cbn.
  rewrite !Z.sub_0_r. repeat split.
  - intros Hlt. destruct (Z.ltb_spec x (re_clock e)); [reflexivity | lia].
  - intros Hle ->. destruct (Z.ltb_spec x (re_clock e)); [lia | reflexivity].
  - intros Hle ->. destruct (Z.ltb_spec x (re_clock e)); [lia | reflexivity].
Qed.

Lemma redirect_on_aware_expiry_witness :
  redirect_found {| re_clock := t0 + 61 * US_PER_SECOND; re_fault := false |}
    sample_request (lit "abcd1") (lit "https://example.com")
    {| wall := t0 + US_PER_MINUTE; tzinfo := Some timezone_utc |} db_abcd1
  = (Ok (error_response 410 "Shortlink expired"), db_abcd1)
  ∧ redirect_found {| re_clock := t0 + US_PER_MINUTE; re_fault := true |}
      sample_request (lit "abcd1") (lit "https://example.com")
      {| wall := t0 + US_PER_MINUTE; tzinfo := Some timezone_utc |} db_abcd1
    = (Ok {| status := 302; payload := RedirectBody (lit "https://example.com") |},
       db_abcd1)
  ∧ clicks
      (redirect_found {| re_clock := t0 + US_PER_MINUTE; re_fault := false |}
         sample_request (lit "abcd1") (lit "https://example.com")
         {| wall := t0 + US_PER_MINUTE; tzinfo := Some timezone_utc |} db_abcd1).2
    = [ {| Click.shortcode := lit "abcd1";
           Click.timestamp := t0 + US_PER_MINUTE;
           Click.referrer := None;
           Click.location := Some (lit "unknown");
           Click.ip := Some (lit "127.0.0.1");
           Click.user_agent := Some (lit "curl/8.0") |} ].
Proof.
  split; [|split].
  - apply (proj1 (redirect_on_aware_expiry
                    {| re_clock := t0 + 61 * US_PER_SECOND; re_fault := false |}
                    sample_request (lit "abcd1") (lit "https://example.com")
                    (t0 + US_PER_MINUTE) db_abcd1)).
    vm_compute. reflexivity.
  - apply (proj1 (proj2 (redirect_on_aware_expiry
                    {| re_clock := t0 + US_PER_MINUTE; re_fault := true |}
                    sample_request (lit "abcd1") (lit "https://example.com")
                    (t0 + US_PER_MINUTE) db_abcd1))); [cbn; lia | reflexivity].
  - rewrite (proj2 (proj2 (redirect_on_aware_expiry
                    {| re_clock := t0 + US_PER_MINUTE; re_fault := false |}
                    sample_request (lit "abcd1") (lit "https://example.com")
                    (t0 + US_PER_MINUTE) db_abcd1)));
      [vm_compute; reflexivity | cbn; lia | reflexivity].
Defined.
